(** * JTF News: the verification and deduplication pipeline of [main.py]

    A shallow embedding of the functions of [src/main.py] that decide
    whether a candidate fact is published, queued or dropped, together
    with the properties the design document states about them.

    Modelling conventions.
    - A Python [str] is a Rocq [string]; its 8-bit characters are read as
      the code points U+0000..U+00FF.  Whitespace, case mapping and
      [int()] follow CPython on that range.
    - A Python [set] of strings is a [gset string]; the dictionary built
      from [CONFIG["sources"]] is a [gmap string SourceRecord].
    - Time stamps are integers: microseconds since the epoch, which is
      the resolution of [datetime] and of its ISO format.  The code
      compares their float values in seconds; the model compares the
      integers.
    - The float product [min_len * threshold] is computed in exact
      rational arithmetic; for the default threshold the comparison with
      a count has the same outcome in both.
    - Code that can raise runs in a small state-and-exception monad over
      a [World] holding the files of [data/] and the log of requests sent
      to the language model. *)

From Stdlib Require Import ZArith QArith String Ascii List Lia.
From Stdlib Require Import DecimalString.
From stdpp Require Import base decidable option list gmap strings.

Local Open Scope Z_scope.

(* ================================================================= *)
(** ** Python string primitives *)
(* ================================================================= *)

Module Py.

Definition ord (c : ascii) : N := N_of_ascii c.

Definition between (lo hi n : N) : bool := ((lo <=? n) && (n <=? hi))%N.

(** [str.isspace] on one character: TAB..CR, FS..US and SPACE, NEL, NBSP. *)
Definition isspace (c : ascii) : bool :=
  between 9 13 (ord c) || between 28 32 (ord c)
  || (ord c =? 133)%N || (ord c =? 160)%N.

(** [str.lower] on one character: A-Z and the Latin-1 capitals except
    the multiplication sign. *)
Definition lower_char (c : ascii) : ascii :=
  if between 65 90 (ord c)
     || (between 192 222 (ord c) && negb (ord c =? 215)%N)
  then ascii_of_N (ord c + 32) else c.

(** [str.upper] on one character.  The micro sign, sharp s and y with
    diaeresis, whose upper case lies outside the range (a Greek letter,
    two letters S, a letter beyond U+00FF), are kept.  [upper] is applied
    to replies only, and a reply with one of the three reads the same
    either way: it is neither NONE nor YES, and the piece that holds it
    is no numeral. *)
Definition upper_char (c : ascii) : ascii :=
  if between 97 122 (ord c)
     || (between 224 254 (ord c) && negb (ord c =? 247)%N)
  then ascii_of_N (ord c - 32) else c.

Fixpoint map_chars (f : ascii -> ascii) (s : string) : string :=
  match s with
  | EmptyString => EmptyString
  | String c s' => String (f c) (map_chars f s')
  end.

Definition lower : string -> string := map_chars lower_char.
Definition upper : string -> string := map_chars upper_char.

(** The maximal runs of characters between separators, empty runs
    included: the fields of [s]. *)
Fixpoint fields_go (sep : ascii -> bool) (cur : list ascii) (cs : list ascii)
  : list string :=
  match cs with
  | [] => [string_of_list_ascii (rev cur)]
  | c :: cs' =>
      if sep c
      then string_of_list_ascii (rev cur) :: fields_go sep [] cs'
      else fields_go sep (c :: cur) cs'
  end.

Definition fields (sep : ascii -> bool) (s : string) : list string :=
  fields_go sep [] (list_ascii_of_string s).

Definition nonempty (s : string) : bool :=
  match s with EmptyString => false | _ => true end.

(** [s.split()]: the non-empty fields between runs of whitespace. *)
Definition split (s : string) : list string :=
  List.filter nonempty (fields isspace s).

(** [s.split(",")]: every field, so never the empty list. *)
Definition split_on (sep : ascii) (s : string) : list string :=
  fields (Ascii.eqb sep) s.

Fixpoint lstrip (cs : list ascii) : list ascii :=
  match cs with
  | c :: cs' => if isspace c then lstrip cs' else cs
  | [] => []
  end.

(** [s.strip()] *)
Definition strip (s : string) : string :=
  string_of_list_ascii
    (rev (lstrip (rev (lstrip (list_ascii_of_string s))))).

(** [s.replace(" ", "")] *)
Fixpoint remove_spaces (s : string) : string :=
  match s with
  | EmptyString => EmptyString
  | String c s' =>
      if Ascii.eqb c " " then remove_spaces s' else String c (remove_spaces s')
  end.

(** [len(s)] *)
Definition len (s : string) : nat := String.length s.

(** [str(n)] for a natural number. *)
Definition str_of_nat (n : nat) : string :=
  NilZero.string_of_uint (Nat.to_uint n).

(** [sep.join(parts)] *)
Fixpoint join (sep : string) (parts : list string) : string :=
  match parts with
  | [] => EmptyString
  | [p] => p
  | p :: ps => p +:+ sep +:+ join sep ps
  end.

(** [s[:n]] *)
Fixpoint take (n : nat) (s : string) : string :=
  match n, s with
  | S n', String c s' => String c (take n' s')
  | _, _ => EmptyString
  end.

(** [s.find(c)]: the first index of [c], or -1. *)
Fixpoint find_from (i : Z) (c : ascii) (s : string) : Z :=
  match s with
  | EmptyString => -1
  | String d s' => if Ascii.eqb c d then i else find_from (i + 1) c s'
  end.
Definition find (c : ascii) (s : string) : Z := find_from 0 c s.

(** [s.rfind(c)]: the last index of [c], or -1. *)
Fixpoint rfind_from (i : Z) (last : Z) (c : ascii) (s : string) : Z :=
  match s with
  | EmptyString => last
  | String d s' =>
      rfind_from (i + 1) (if Ascii.eqb c d then i else last) c s'
  end.
Definition rfind (c : ascii) (s : string) : Z := rfind_from 0 (-1) c s.

(** [s[start:stop]] for [0 <= start]. *)
Definition slice (start stop : Z) (s : string) : string :=
  String.substring (Z.to_nat start) (Z.to_nat (stop - start))
    (take (Z.to_nat stop) s).

(** The double quote character. *)
Definition dquote : ascii := "034"%char.

Definition quoted (s : string) : string :=
  String dquote (s +:+ String dquote EmptyString).

Definition starts_with (c : ascii) (s : string) : bool :=
  match s with String d _ => Ascii.eqb c d | EmptyString => false end.

(** [s.replace(bq, q)] where [q] is the double quote and [bq] a
    backslash followed by it: the backslash goes. *)
Fixpoint unescape_quotes (s : string) : string :=
  match s with
  | String c s' =>
      if Ascii.eqb c "\" && starts_with dquote s'
      then unescape_quotes s' else String c (unescape_quotes s')
  | EmptyString => EmptyString
  end.

(** *** [int(s)] in base ten *)

(** The blanks [int] removes on both sides; FS..US are not among them. *)
Definition int_blank (c : ascii) : bool :=
  between 9 13 (ord c) || (ord c =? 32)%N
  || (ord c =? 133)%N || (ord c =? 160)%N.

Definition digit_val (c : ascii) : option Z :=
  if between 48 57 (ord c) then Some (Z.of_N (ord c) - 48) else None.

Fixpoint drop_blanks (cs : list ascii) : list ascii :=
  match cs with
  | c :: cs' => if int_blank c then drop_blanks cs' else cs
  | [] => []
  end.

(** Digits, with single underscores allowed between two digits. *)
Fixpoint int_digits (acc : Z) (after_digit : bool) (cs : list ascii)
  : option Z :=
  match cs with
  | [] => if after_digit then Some acc else None
  | c :: cs' =>
      match digit_val c with
      | Some d => int_digits (10 * acc + d) true cs'
      | None =>
          if Ascii.eqb c "_" && after_digit
          then int_digits acc false cs' else None
      end
  end.

(** [None] stands for [ValueError].  (CPython also refuses numerals of
    more than 4300 digits; the one caller discards every value above
    the length of a list, so both behaviours agree there.) *)
Definition int (s : string) : option Z :=
  let cs := rev (drop_blanks (rev (drop_blanks (list_ascii_of_string s)))) in
  match cs with
  | "-"%char :: ds => Z.opp <$> int_digits 0 false ds
  | "+"%char :: ds => int_digits 0 false ds
  | _ => int_digits 0 false cs
  end.

(** *** The two patterns of [re.search] used by the fallback parser *)

Fixpoint skip_space (cs : list ascii) : list ascii :=
  match cs with
  | c :: cs' => if isspace c then skip_space cs' else cs
  | [] => []
  end.

Fixpoint expect (lit : list ascii) (cs : list ascii) : option (list ascii) :=
  match lit, cs with
  | [], _ => Some cs
  | l :: lit', c :: cs' => if Ascii.eqb l c then expect lit' cs' else None
  | _ :: _, [] => None
  end.

(** The quoted [key], blanks, a colon, blanks at the head of [cs]:
    what follows them. *)
Definition expect_key (key : string) (cs : list ascii) : option (list ascii) :=
  rest ← expect (list_ascii_of_string (quoted key)) cs;
  skip_space <$> expect [":"%char] (skip_space rest).

(** A run without double quote followed by a double quote: the run. *)
Fixpoint until_quote (cs : list ascii) : option (list ascii) :=
  match cs with
  | [] => None
  | c :: cs' =>
      if Ascii.eqb c dquote then Some []
      else (fun run => c :: run) <$> until_quote cs'
  end.

Fixpoint digits_run (cs : list ascii) : list ascii :=
  match cs with
  | c :: cs' => if between 48 57 (ord c) then c :: digits_run cs' else []
  | [] => []
  end.

(** The first position at which [m] matches. *)
Fixpoint search {A} (m : list ascii -> option A) (cs : list ascii) : option A :=
  match m cs with
  | Some a => Some a
  | None => match cs with [] => None | _ :: cs' => search m cs' end
  end.

(** Group 1 of the pattern for the fact field: the quoted key, a
    colon between optional blanks, an opening quote, the group and a
    closing quote.  The group starts with a greedy run of characters
    other than the double quote; that run stops at the first double
    quote, where the pattern closes at once, so the optional escaped
    pairs after the run never take part in a match. *)
Definition search_fact (text : string) : option string :=
  string_of_list_ascii <$>
    search (fun cs => rest ← expect_key "fact" cs;
                      body ← expect [dquote] rest;
                      until_quote body)
           (list_ascii_of_string text).

(** Group 1 of the pattern for the confidence field: the quoted key,
    a colon between optional blanks, then the longest run of digits. *)
Definition search_confidence (text : string) : option string :=
  string_of_list_ascii <$>
    search (fun cs => rest ← expect_key "confidence" cs;
                      match digits_run rest with
                      | [] => None
                      | ds => Some ds
                      end)
           (list_ascii_of_string text).

(** *** MD5 ([hashlib.md5(s.encode()).hexdigest()]) *)

Definition wrap32 (x : Z) : Z := x mod 2 ^ 32.

Definition rotl32 (x : Z) (n : Z) : Z :=
  wrap32 (Z.lor (Z.shiftl x n) (Z.shiftr x (32 - n))).

Definition not32 (x : Z) : Z := Z.lxor x 4294967295.

(** [s.encode()]: UTF-8 of code points below 256. *)
Fixpoint encode (s : string) : list Z :=
  match s with
  | EmptyString => []
  | String c s' =>
      let n := Z.of_N (ord c) in
      if n <? 128 then n :: encode s'
      else Z.lor 192 (Z.shiftr n 6) :: Z.lor 128 (Z.land n 63) :: encode s'
  end.

Definition md5_K : list Z :=
  [ 0xd76aa478; 0xe8c7b756; 0x242070db; 0xc1bdceee;
    0xf57c0faf; 0x4787c62a; 0xa8304613; 0xfd469501;
    0x698098d8; 0x8b44f7af; 0xffff5bb1; 0x895cd7be;
    0x6b901122; 0xfd987193; 0xa679438e; 0x49b40821;
    0xf61e2562; 0xc040b340; 0x265e5a51; 0xe9b6c7aa;
    0xd62f105d; 0x02441453; 0xd8a1e681; 0xe7d3fbc8;
    0x21e1cde6; 0xc33707d6; 0xf4d50d87; 0x455a14ed;
    0xa9e3e905; 0xfcefa3f8; 0x676f02d9; 0x8d2a4c8a;
    0xfffa3942; 0x8771f681; 0x6d9d6122; 0xfde5380c;
    0xa4beea44; 0x4bdecfa9; 0xf6bb4b60; 0xbebfbc70;
    0x289b7ec6; 0xeaa127fa; 0xd4ef3085; 0x04881d05;
    0xd9d4d039; 0xe6db99e5; 0x1fa27cf8; 0xc4ac5665;
    0xf4292244; 0x432aff97; 0xab9423a7; 0xfc93a039;
    0x655b59c3; 0x8f0ccc92; 0xffeff47d; 0x85845dd1;
    0x6fa87e4f; 0xfe2ce6e0; 0xa3014314; 0x4e0811a1;
    0xf7537e82; 0xbd3af235; 0x2ad7d2bb; 0xeb86d391 ].

Definition md5_shifts : list Z :=
  [ 7; 12; 17; 22; 7; 12; 17; 22; 7; 12; 17; 22; 7; 12; 17; 22;
    5; 9; 14; 20; 5; 9; 14; 20; 5; 9; 14; 20; 5; 9; 14; 20;
    4; 11; 16; 23; 4; 11; 16; 23; 4; 11; 16; 23; 4; 11; 16; 23;
    6; 10; 15; 21; 6; 10; 15; 21; 6; 10; 15; 21; 6; 10; 15; 21 ].

(** [n] bytes of [x], least significant first. *)
Fixpoint le_bytes (n : nat) (x : Z) : list Z :=
  match n with
  | O => []
  | S n' => x mod 256 :: le_bytes n' (x / 256)
  end.

Fixpoint le_word (bs : list Z) : Z :=
  match bs with
  | [] => 0
  | b :: bs' => b + 256 * le_word bs'
  end.

Definition md5_pad (msg : list Z) : list Z :=
  let n := Z.of_nat (length msg) in
  let zeros := Z.to_nat ((55 - n) mod 64) in
  msg ++ [128] ++ repeat 0 zeros ++ le_bytes 8 ((8 * n) mod 2 ^ 64).

(** Consecutive groups of [k] items; [fuel] bounds their number. *)
Fixpoint chunks {A} (fuel k : nat) (l : list A) : list (list A) :=
  match fuel, l with
  | S fuel', _ :: _ => firstn k l :: chunks fuel' k (skipn k l)
  | _, _ => []
  end.

Definition md5_round (M : list Z) (st : Z * Z * Z * Z) (i : nat)
  : Z * Z * Z * Z :=
  let '(a, b, c, d) := st in
  let iz := Z.of_nat i in
  let '(f, g) :=
    if iz <? 16 then (Z.lor (Z.land b c) (Z.land (not32 b) d), iz)
    else if iz <? 32
    then (Z.lor (Z.land d b) (Z.land (not32 d) c), (5 * iz + 1) mod 16)
    else if iz <? 48 then (Z.lxor (Z.lxor b c) d, (3 * iz + 5) mod 16)
    else (Z.lxor c (Z.lor b (not32 d)), (7 * iz) mod 16) in
  let f' := wrap32 (f + a + nth i md5_K 0 + nth (Z.to_nat g) M 0) in
  (d, wrap32 (b + rotl32 f' (nth i md5_shifts 0)), b, c).

Definition md5_block (st : Z * Z * Z * Z) (block : list Z) : Z * Z * Z * Z :=
  let M := le_word <$> chunks 16 4 block in
  let '(a0, b0, c0, d0) := st in
  let '(a, b, c, d) := fold_left (md5_round M) (seq 0 64) st in
  (wrap32 (a0 + a), wrap32 (b0 + b), wrap32 (c0 + c), wrap32 (d0 + d)).

Definition md5 (msg : list Z) : list Z :=
  let padded := md5_pad msg in
  let '(a, b, c, d) :=
    fold_left md5_block (chunks (length padded) 64 padded)
      (0x67452301, 0xefcdab89, 0x98badcfe, 0x10325476) in
  le_bytes 4 a ++ le_bytes 4 b ++ le_bytes 4 c ++ le_bytes 4 d.

Definition hex_digit (n : Z) : ascii :=
  ascii_of_N (Z.to_N (if n <? 10 then 48 + n else 87 + n)).

Fixpoint hex (bs : list Z) : string :=
  match bs with
  | [] => EmptyString
  | b :: bs' => String (hex_digit (b / 16)) (String (hex_digit (b mod 16)) (hex bs'))
  end.

Definition md5_hexdigest (s : string) : string := hex (md5 (encode s)).

End Py.

(* ================================================================= *)
(** ** Lexical overlap prefilter *)
(* ================================================================= *)

(** [set(w.lower() for w in fact.split() if len(w) >= 3)] *)
Definition word_set (fact : string) : gset string :=
  list_to_set
    (Py.lower <$> List.filter (fun w => (3 <=? Py.len w)%nat) (Py.split fact)).

(** The default of the keyword argument [threshold]. *)
Definition DEFAULT_THRESHOLD : Q := 15 # 100.

Definition has_word_overlap (fact1 fact2 : string) (threshold : Q) : bool :=
  let words1 := word_set fact1 in
  let words2 := word_set fact2 in
  if bool_decide (words1 = ∅) || bool_decide (words2 = ∅) then false
  else
    let shared := words1 ∩ words2 in
    let min_len := Nat.min (size words1) (size words2) in
    Qle_bool (inject_Z (Z.of_nat min_len) * threshold)
             (inject_Z (Z.of_nat (size shared))).

(* ================================================================= *)
(** ** Data model *)
(* ================================================================= *)

(** An entry of [institutional_holders]; only its name is read. *)
Record Holder := { holder_name : string }.

(** An entry of [CONFIG["sources"]].  [src_holders] is [None] when the
    key [institutional_holders] is absent. *)
Record SourceRecord := {
  src_id : string;
  src_name : string;
  src_owner : string;
  src_holders : option (list Holder)
}.

(** The options of [config.json] that the pipeline reads. *)
Record Config := {
  sources : list SourceRecord;
  max_shared_top_holders : Z;
  queue_timeout_hours : Z;
  min_confidence : Z;
  claude_model : string;
  claude_max_tokens : Z
}.

(** A scraped headline. *)
Record Headline := {
  h_text : string;
  h_source_id : string;
  h_source_name : string;
  h_source_rating : Q;
  h_owner : string;
  h_timestamp : Z
}.

(** An entry of the pending queue. *)
Record QueueItem := {
  q_fact : string;
  q_source_id : string;
  q_source_name : string;
  q_source_rating : Q;
  q_timestamp : Z;
  q_confidence : Z
}.

(** The dictionary returned by [extract_fact], with the keys the
    pipeline reads; [None] is an absent key. *)
Record ExtractResult := {
  r_fact : string;
  r_confidence : Z;
  r_newsworthy : option bool;
  r_threshold_met : option string
}.

(** What the output files keep of a source: name and rating. *)
Record SourceRef := { ref_name : string; ref_rating : Q }.

(** An entry of [stories.json]. *)
Record Story := {
  s_fact : string;
  s_source : list SourceRef;
  s_audio : string
}.

(** A request to the language model. *)
Record Request := {
  req_model : string;
  req_max_tokens : Z;
  req_content : string
}.

(** The records written to the log. *)
Inductive LogRecord :=
| LogStartingCycle
| LogKillSwitch
| LogTotalHeadlines (n : nat)
| LogExpired (fact : string)
| LogLowConfidence (confidence : Z) (fact : string)
| LogNotNewsworthy (threshold_met : string) (fact : string)
| LogDuplicate (fact : string)
| LogDuplicateBatch (fact : string)
| LogPrefilter (candidates queue : nat)
| LogClaudeApiError
| LogBatchMatchingError
| LogDuplicateCheckError
| LogGeneratedTts (text : string)
| LogTtsError
| LogPublished (fact : string)
| LogVerified (fact : string)
| LogQueued (fact : string)
| LogCycleComplete (published queue skipped : nat).

(** The exceptions that occur.  [SystemExit] is not an [Exception]. *)
Inductive Exn := ValueError | IndexError | APIError | SystemExit.

Definition is_Exception (e : Exn) : bool :=
  match e with SystemExit => false | _ => true end.

(** Everything outside the process: the kill switch, the clock, the
    files of [data/] for the current UTC day, the requests sent to the
    language model so far, and the log. *)
Record World := {
  kill_switch : bool;
  clock : Z;
  queue_json : option (list QueueItem);
  shown_txt : list string;
  stories_json : list Story;
  processed_txt : list string;
  current_txt : option (string * list SourceRef);
  requests : list Request;
  journal : list LogRecord
}.

Definition set_queue_json (q : option (list QueueItem)) (w : World) : World :=
  {| kill_switch := kill_switch w; clock := clock w; queue_json := q;
     shown_txt := shown_txt w; stories_json := stories_json w;
     processed_txt := processed_txt w; current_txt := current_txt w;
     requests := requests w; journal := journal w |}.

Definition set_shown_txt (l : list string) (w : World) : World :=
  {| kill_switch := kill_switch w; clock := clock w;
     queue_json := queue_json w; shown_txt := l;
     stories_json := stories_json w; processed_txt := processed_txt w;
     current_txt := current_txt w; requests := requests w;
     journal := journal w |}.

Definition set_stories_json (l : list Story) (w : World) : World :=
  {| kill_switch := kill_switch w; clock := clock w;
     queue_json := queue_json w; shown_txt := shown_txt w;
     stories_json := l; processed_txt := processed_txt w;
     current_txt := current_txt w; requests := requests w;
     journal := journal w |}.

Definition set_processed_txt (l : list string) (w : World) : World :=
  {| kill_switch := kill_switch w; clock := clock w;
     queue_json := queue_json w; shown_txt := shown_txt w;
     stories_json := stories_json w; processed_txt := l;
     current_txt := current_txt w; requests := requests w;
     journal := journal w |}.

Definition set_current_txt (c : option (string * list SourceRef)) (w : World)
  : World :=
  {| kill_switch := kill_switch w; clock := clock w;
     queue_json := queue_json w; shown_txt := shown_txt w;
     stories_json := stories_json w; processed_txt := processed_txt w;
     current_txt := c; requests := requests w; journal := journal w |}.

Definition set_requests (l : list Request) (w : World) : World :=
  {| kill_switch := kill_switch w; clock := clock w;
     queue_json := queue_json w; shown_txt := shown_txt w;
     stories_json := stories_json w; processed_txt := processed_txt w;
     current_txt := current_txt w; requests := l; journal := journal w |}.

Definition set_journal (l : list LogRecord) (w : World) : World :=
  {| kill_switch := kill_switch w; clock := clock w;
     queue_json := queue_json w; shown_txt := shown_txt w;
     stories_json := stories_json w; processed_txt := processed_txt w;
     current_txt := current_txt w; requests := requests w; journal := l |}.

(* ================================================================= *)
(** ** Computations that change the world and may raise *)
(* ================================================================= *)

Inductive Outcome (A : Type) :=
| Ok (a : A)
| Raise (e : Exn).
Arguments Ok {A} a.
Arguments Raise {A} e.

Definition M (A : Type) : Type := World -> Outcome A * World.

Definition ret {A} (a : A) : M A := fun w => (Ok a, w).

Definition raise {A} (e : Exn) : M A := fun w => (Raise e, w).

Definition bind {A B} (m : M A) (k : A -> M B) : M B :=
  fun w =>
    match m w with
    | (Ok a, w') => k a w'
    | (Raise e, w') => (Raise e, w')
    end.

Notation "'let*' x ':=' m 'in' k" :=
  (bind m (fun x => k))
    (at level 10, x name, m at level 100, k at level 200).
Notation "m '>>' k" :=
  (bind m (fun _ => k)) (at level 90, right associativity).

(** [try: body except Exception: handler] *)
Definition try_except {A} (body : M A) (handler : Exn -> M A) : M A :=
  fun w =>
    match body w with
    | (Ok a, w') => (Ok a, w')
    | (Raise e, w') => if is_Exception e then handler e w' else (Raise e, w')
    end.

(** [try: body except ValueError: handler] *)
Definition try_except_ValueError {A} (body : M A) (handler : M A) : M A :=
  fun w =>
    match body w with
    | (Raise ValueError, w') => handler w'
    | r => r
    end.

Definition gets {A} (f : World -> A) : M A := fun w => (Ok (f w), w).

Definition modify (f : World -> World) : M unit := fun w => (Ok tt, f w).

(** [log.info], [log.warning] and [log.error]. *)
Definition log (r : LogRecord) : M unit :=
  modify (fun w => set_journal (journal w ++ [r]) w).

(* ================================================================= *)
(** ** Verification *)
(* ================================================================= *)

Definition get_story_hash (text : string) : string :=
  Py.take 12 (Py.md5_hexdigest (Py.lower text)).

(** [{s["id"]: s for s in srcs}]: a later entry replaces an earlier one
    with the same id. *)
Definition sources_by_id (srcs : list SourceRecord) : gmap string SourceRecord :=
  fold_left (fun m s => <[src_id s := s]> m) srcs ∅.

(** [{h["name"] for h in s.get("institutional_holders", [])}] *)
Definition holder_names (s : SourceRecord) : gset string :=
  list_to_set (holder_name <$> default [] (src_holders s)).

Section Model.

Variable CONFIG : Config.

(** The text of the module constant of that name. *)
Variable FACT_EXTRACTION_PROMPT : string.

(** [client.messages.create(...)] followed by [.content[0].text]: the
    reply to a request, given how many requests were sent before it;
    [None] when the call or the access to the reply raises. *)
Variable messages_create : nat -> Request -> option string.

(** [json.loads] on replies that decode to an object with a string
    [fact] and an integer [confidence]; [None] is [JSONDecodeError]. *)
Variable json_loads : string -> option ExtractResult.

(** Whether the speech synthesis and the writing of its files succeed. *)
Variable text_to_speech : string -> bool.

Definition are_sources_unrelated (source1_id source2_id : string) : bool :=
  let by_id := sources_by_id (sources CONFIG) in
  match by_id !! source1_id, by_id !! source2_id with
  | Some s1, Some s2 =>
      if bool_decide (src_owner s1 = src_owner s2) then false
      else
        let holders1 := holder_names s1 in
        let holders2 := holder_names s2 in
        let shared := holders1 ∩ holders2 in
        if max_shared_top_holders CONFIG <=? Z.of_nat (size shared)
        then false else true
  | _, _ => false
  end.

(** One request to the language model; it is recorded whether or not
    it succeeds. *)
Definition claude (max_tokens : Z) (content : string) : M string :=
  fun w =>
    let req := {| req_model := claude_model CONFIG;
                  req_max_tokens := max_tokens;
                  req_content := content |} in
    let w' := set_requests (requests w ++ [req]) w in
    match messages_create (length (requests w)) req with
    | Some text => (Ok text, w')
    | None => (Raise APIError, w')
    end.

Definition nl : string := String "010"%char EmptyString.

(** [[f"{i+1}. {p}" for i, p in enumerate(facts)]] *)
Definition numbered (facts : list string) : list string :=
  imap (fun i p => Py.str_of_nat (S i) +:+ ". " +:+ p) facts.

Definition matching_prompt (fact : string) (queue_list : string) : string :=
  "Compare this new fact against the numbered list below." +:+ nl +:+
  "Return ONLY the numbers of facts that describe the SAME EVENT as the new fact." +:+ nl +:+
  "Same event means: same incident, same person doing same action, same announcement." +:+ nl +:+
  "Details like death counts or exact wording may differ." +:+ nl +:+ nl +:+
  "New fact: " +:+ fact +:+ nl +:+ nl +:+
  "Existing facts:" +:+ nl +:+ queue_list +:+ nl +:+ nl +:+
  "Reply with ONLY comma-separated numbers (e.g., " +:+ Py.quoted "1,3,5" +:+
  ") or " +:+ Py.quoted "NONE" +:+ " if no matches.".

Definition duplicate_prompt (fact : string) (pub_list : string) : string :=
  "Does this new fact describe the SAME EVENT as any fact in the list below?" +:+ nl +:+
  "Same event means: same incident, same person doing same action, same announcement." +:+ nl +:+
  "Details like death counts or exact wording may differ." +:+ nl +:+ nl +:+
  "New fact: " +:+ fact +:+ nl +:+ nl +:+
  "Published facts:" +:+ nl +:+ pub_list +:+ nl +:+ nl +:+
  "Reply with ONLY " +:+ Py.quoted "YES" +:+ " or " +:+ Py.quoted "NO" +:+ ".".

(** [int(num_str)] *)
Definition int (num_str : string) : M Z :=
  match Py.int num_str with
  | Some n => ret n
  | None => raise ValueError
  end.

(** [candidates[idx]] for [0 <= idx] *)
Definition item_at {A} (candidates : list A) (idx : Z) : M A :=
  match candidates !! Z.to_nat idx with
  | Some item => ret item
  | None => raise IndexError
  end.

(** The loop over the comma-separated pieces of the answer. *)
Fixpoint parse_numbers (candidates : list QueueItem) (pieces : list string)
  (matches : list QueueItem) : M (list QueueItem) :=
  match pieces with
  | [] => ret matches
  | num_str :: rest =>
      let* matches' :=
        try_except_ValueError
          (let* n := int num_str in
           let idx := n - 1 in
           if (0 <=? idx) && (idx <? Z.of_nat (length candidates))
           then (let* item := item_at candidates idx in ret (matches ++ [item]))
           else ret matches)
          (ret matches) in
      parse_numbers candidates rest matches'
  end.

Definition overlapping_items (fact : string) (queue : list QueueItem)
  : list QueueItem :=
  List.filter (fun item => has_word_overlap fact (q_fact item) DEFAULT_THRESHOLD)
    queue.

Definition find_matching_stories (fact : string) (queue : list QueueItem)
  : M (list QueueItem) :=
  match queue with
  | [] => ret []
  | _ =>
      let candidates := overlapping_items fact queue in
      match candidates with
      | [] => ret []
      | _ =>
          log (LogPrefilter (length candidates) (length queue)) >>
          try_except
            (let queue_list := Py.join nl (numbered (q_fact <$> candidates)) in
             let prompt := matching_prompt fact queue_list in
             let* response := claude 50 prompt in
             let answer := Py.upper (Py.strip response) in
             if String.eqb answer "NONE" || negb (Py.nonempty answer)
             then ret []
             else parse_numbers candidates
                    (Py.split_on "," (Py.remove_spaces answer)) [])
            (fun _ => log LogBatchMatchingError >> ret [])
      end
  end.

Definition overlapping_facts (fact : string) (published : list string)
  : list string :=
  List.filter (fun p => has_word_overlap fact p DEFAULT_THRESHOLD) published.

Definition is_duplicate_batch (fact : string) (published : list string)
  : M bool :=
  match published with
  | [] => ret false
  | _ =>
      let candidates := overlapping_facts fact published in
      match candidates with
      | [] => ret false
      | _ =>
          try_except
            (let pub_list := Py.join nl (numbered candidates) in
             let prompt := duplicate_prompt fact pub_list in
             let* response := claude 10 prompt in
             let answer := Py.upper (Py.strip response) in
             if String.eqb answer "YES"
             then log (LogDuplicateBatch fact) >> ret true
             else ret false)
            (fun _ => log LogDuplicateCheckError >> ret false)
      end
  end.

(* ----------------------------------------------------------------- *)
(** *** Queue management *)

Definition load_queue : M (list QueueItem) :=
  gets (fun w => default [] (queue_json w)).

Definition save_queue (queue : list QueueItem) : M unit :=
  modify (set_queue_json (Some queue)).

Definition MICROSECONDS : Z := 1000000.

(** The loop of [clean_expired_queue]. *)
Fixpoint clean_loop (cutoff : Z) (queue cleaned : list QueueItem)
  : M (list QueueItem) :=
  match queue with
  | [] => ret cleaned
  | item :: rest =>
      let item_time := q_timestamp item in
      if cutoff <? item_time
      then clean_loop cutoff rest (cleaned ++ [item])
      else log (LogExpired (Py.take 50 (q_fact item))) >>
           clean_loop cutoff rest cleaned
  end.

Definition clean_expired_queue (queue : list QueueItem) : M (list QueueItem) :=
  let timeout_hours := queue_timeout_hours CONFIG in
  let* now := gets clock in
  let cutoff := now - timeout_hours * 3600 * MICROSECONDS in
  clean_loop cutoff queue [].

(* ----------------------------------------------------------------- *)
(** *** Duplicate detection *)

(** [set(line.strip() for line in f if line.strip())] *)
Definition hash_lines (lines : list string) : gset string :=
  list_to_set (List.filter Py.nonempty (Py.strip <$> lines)).

Definition load_shown_hashes : M (gset string) :=
  gets (fun w => hash_lines (shown_txt w)).

Definition add_shown_hash (story_hash : string) : M unit :=
  modify (fun w => set_shown_txt (shown_txt w ++ [story_hash]) w).

Definition load_published_stories : M (list string) :=
  gets (fun w => s_fact <$> stories_json w).

Definition is_duplicate (fact : string) : M bool :=
  let story_hash := get_story_hash fact in
  let* shown := load_shown_hashes in
  if bool_decide (story_hash ∈ shown) then ret true
  else
    let* published := load_published_stories in
    is_duplicate_batch fact published.

(* ----------------------------------------------------------------- *)
(** *** Headline cache *)

Definition load_processed_headlines : M (gset string) :=
  gets (fun w => hash_lines (processed_txt w)).

Definition add_processed_headline (headline_hash : string) : M unit :=
  modify (fun w => set_processed_txt (processed_txt w ++ [headline_hash]) w).

Definition is_headline_processed (headline_text : string)
  (processed_cache : gset string) : bool :=
  bool_decide (get_story_hash headline_text ∈ processed_cache).

(* ----------------------------------------------------------------- *)
(** *** Fact extraction *)

Definition SKIP_result : ExtractResult :=
  {| r_fact := "SKIP"; r_confidence := 0;
     r_newsworthy := None; r_threshold_met := None |}.

(** The parse by patterns that follows a failed [json.loads]. *)
Definition fallback_parse (text : string) : M ExtractResult :=
  match Py.search_fact text with
  | Some group1 =>
      let fact := Py.unescape_quotes group1 in
      let* confidence :=
        match Py.search_confidence text with
        | Some digits => int digits
        | None => ret 85
        end in
      ret {| r_fact := fact; r_confidence := confidence;
             r_newsworthy := None; r_threshold_met := None |}
  | None => ret SKIP_result
  end.

(** The inner [try]: the reply from its first opening brace to its last
    closing brace, decoded; [None] when there is no such stretch or it
    does not decode. *)
Definition decode_reply (text : string) : option ExtractResult :=
  let start := Py.find "{" text in
  let stop := Py.rfind "}" text + 1 in
  if (0 <=? start) && (start <? stop)
  then json_loads (Py.slice start stop text) else None.

Definition extract_fact (headline : string) : M ExtractResult :=
  try_except
    (let* text :=
       claude (claude_max_tokens CONFIG) (FACT_EXTRACTION_PROMPT +:+ headline) in
     match decode_reply text with
     | Some result => ret result
     | None => fallback_parse text
     end)
    (fun _ => log LogClaudeApiError >> ret SKIP_result).

(* ----------------------------------------------------------------- *)
(** *** Speech and output files *)

Definition get_next_audio_index : M nat :=
  gets (fun w => length (stories_json w)).

(** [None] stands for the [False] returned after an error. *)
Definition generate_tts (text : string) (audio_index : nat)
  : M (option string) :=
  if text_to_speech text
  then log (LogGeneratedTts (Py.take 50 text)) >>
       ret (Some ("audio_" +:+ Py.str_of_nat audio_index +:+ ".mp3"))
  else log LogTtsError >> ret None.

(** [sources[:2]] with the two keys the output files read. *)
Definition source_refs (headline : Headline) (matched : QueueItem)
  : list SourceRef :=
  [ {| ref_name := h_source_name headline;
       ref_rating := h_source_rating headline |};
    {| ref_name := q_source_name matched;
       ref_rating := q_source_rating matched |} ].

Definition write_current_story (fact : string) (srcs : list SourceRef)
  : M unit :=
  modify (set_current_txt (Some (fact, srcs))) >>
  log (LogPublished (Py.take 50 fact)).

(** The entry added to [stories.json]; the text log of the day and the
    RSS feed, which the pipeline never reads back, are left out. *)
Definition append_daily_log (fact : string) (srcs : list SourceRef)
  (audio_file : option string) : M unit :=
  let audio :=
    match audio_file with
    | Some f => "../audio/" +:+ f
    | None => "../audio/current.mp3"
    end in
  modify (fun w =>
    set_stories_json
      (stories_json w ++ [{| s_fact := fact; s_source := srcs; s_audio := audio |}])
      w).

(* ----------------------------------------------------------------- *)
(** *** Main loop *)

(** The local variables of [process_cycle] that its loop updates. *)
Record Locals := {
  queue : list QueueItem;
  skipped_count : nat;
  published_count : nat
}.

(** The body of [if are_sources_unrelated(...)]: publish [fact] with
    [matched] and take [matched] out of the queue. *)
Definition publish_verified (headline : Headline) (fact : string)
  (matched : QueueItem) (st : Locals) : M Locals :=
  let srcs := source_refs headline matched in
  let* audio_index := get_next_audio_index in
  let* audio_file := generate_tts fact audio_index in
  write_current_story fact srcs >>
  append_daily_log fact srcs audio_file >>
  add_shown_hash (get_story_hash fact) >>
  let queue' :=
    List.filter (fun q => negb (String.eqb (q_fact q) (q_fact matched)))
      (queue st) in
  log (LogVerified (Py.take 50 fact)) >>
  ret {| queue := queue'; skipped_count := skipped_count st;
         published_count := S (published_count st) |}.

(** [for match in matches: if are_sources_unrelated(...): ...; break] *)
Fixpoint check_matches (headline : Headline) (fact : string)
  (matches : list QueueItem) (st : Locals) : M Locals :=
  match matches with
  | [] => ret st
  | matched :: rest =>
      if are_sources_unrelated (h_source_id headline) (q_source_id matched)
      then publish_verified headline fact matched st
      else check_matches headline fact rest st
  end.

Definition new_queue_item (headline : Headline) (fact : string)
  (confidence : Z) : QueueItem :=
  {| q_fact := fact;
     q_source_id := h_source_id headline;
     q_source_name := h_source_name headline;
     q_source_rating := h_source_rating headline;
     q_timestamp := h_timestamp headline;
     q_confidence := confidence |}.

(** The part of the loop body that handles a fact which passed the
    confidence and newsworthiness gates: duplicate check, matching,
    then publication or queueing. *)
Definition process_candidate (headline : Headline) (fact : string)
  (confidence : Z) (st : Locals) : M Locals :=
  let* dup := is_duplicate fact in
  if dup then log (LogDuplicate (Py.take 40 fact)) >> ret st
  else
    let* matches := find_matching_stories fact (queue st) in
    match matches with
    | _ :: _ => check_matches headline fact matches st
    | [] =>
        log (LogQueued (Py.take 40 fact)) >>
        ret {| queue := queue st ++ [new_queue_item headline fact confidence];
               skipped_count := skipped_count st;
               published_count := published_count st |}
    end.

(** One iteration of [for headline in headlines]. *)
Definition process_headline (processed_cache : gset string)
  (st : Locals) (headline : Headline) : M Locals :=
  if is_headline_processed (h_text headline) processed_cache
  then ret {| queue := queue st; skipped_count := S (skipped_count st);
              published_count := published_count st |}
  else
    add_processed_headline (get_story_hash (h_text headline)) >>
    let* result := extract_fact (h_text headline) in
    if String.eqb (r_fact result) "SKIP" then ret st
    else
      let fact := r_fact result in
      let confidence := r_confidence result in
      if confidence <? min_confidence CONFIG
      then log (LogLowConfidence confidence (Py.take 40 fact)) >> ret st
      else
        let newsworthy := default true (r_newsworthy result) in
        let threshold_met := default "unknown" (r_threshold_met result) in
        if negb newsworthy
        then log (LogNotNewsworthy threshold_met (Py.take 40 fact)) >> ret st
        else process_candidate headline fact confidence st.

Fixpoint for_each {A S} (body : S -> A -> M S) (items : list A) (st : S)
  : M S :=
  match items with
  | [] => ret st
  | x :: rest => let* st' := body st x in for_each body rest st'
  end.

(** The rest of [process_cycle] once the queue is loaded and cleaned;
    [headlines] is the value of [scrape_all_sources()]. *)
Definition process_headlines (headlines : list Headline)
  (cleaned : list QueueItem) : M unit :=
  log (LogTotalHeadlines (length headlines)) >>
  let* processed_cache := load_processed_headlines in
  let* st :=
    for_each (process_headline processed_cache) headlines
      {| queue := cleaned; skipped_count := 0; published_count := 0 |} in
  save_queue (queue st) >>
  log (LogCycleComplete (published_count st) (length (queue st))
         (skipped_count st)).

Definition process_cycle (headlines : list Headline) : M unit :=
  log LogStartingCycle >>
  let* stop := gets kill_switch in
  (if stop then log LogKillSwitch >> raise SystemExit else ret tt) >>
  let* loaded := load_queue in
  let* cleaned := clean_expired_queue loaded in
  process_headlines headlines cleaned.

End Model.

(* ================================================================= *)
(** ** Notions used to state the properties *)
(* ================================================================= *)

(** Younger than the cutoff. *)
Definition fresh (cutoff : Z) (item : QueueItem) : bool :=
  cutoff <? q_timestamp item.

(** A decimal digit. *)
Definition is_digit (c : ascii) : Prop := Py.between 48 57 (Py.ord c) = true.

(** An item whose fact text differs from that of [matched]. *)
Definition other_fact (matched : QueueItem) (q : QueueItem) : bool :=
  negb (String.eqb (q_fact q) (q_fact matched)).

(** The queue timeout in microseconds. *)
Definition timeout_microseconds (cfg : Config) : Z :=
  queue_timeout_hours cfg * 3600 * MICROSECONDS.

(** Two worlds with the same files, kill switch and clock: they differ
    at most in the requests sent and in the log. *)
Definition same_files (w w' : World) : Prop :=
  kill_switch w' = kill_switch w /\ clock w' = clock w
  /\ queue_json w' = queue_json w /\ shown_txt w' = shown_txt w
  /\ stories_json w' = stories_json w /\ processed_txt w' = processed_txt w
  /\ current_txt w' = current_txt w.

(** The world after one more log record. *)
Definition logged (r : LogRecord) (w : World) : World :=
  set_journal (journal w ++ [r]) w.

(** What a reply selects, in the words of the design: each piece that
    reads as an integer between 1 and the length of the shortlist
    selects the entry of that number; every other piece selects
    nothing. *)
Definition selected_by (candidates : list QueueItem) (pieces : list string)
  : list QueueItem :=
  flat_map
    (fun piece =>
       match Py.int piece with
       | Some n =>
           if (1 <=? n) && (n <=? Z.of_nat (length candidates))
           then option_list (candidates !! Z.to_nat (n - 1))
           else []
       | None => []
       end)
    pieces.

(** The request the matcher sends for a shortlist. *)
Definition matching_request (cfg : Config) (fact : string)
  (candidates : list QueueItem) : Request :=
  {| req_model := claude_model cfg;
     req_max_tokens := 50;
     req_content :=
       matching_prompt fact (Py.join nl (numbered (q_fact <$> candidates))) |}.

(** The request the batch duplicate check sends for a shortlist. *)
Definition duplicate_request (cfg : Config) (fact : string)
  (candidates : list string) : Request :=
  {| req_model := claude_model cfg;
     req_max_tokens := 10;
     req_content := duplicate_prompt fact (Py.join nl (numbered candidates)) |}.

(** The matches a reply stands for: none when the call failed, none
    for the sentinel NONE or an empty answer, and otherwise the entries
    selected by the pieces between the commas. *)
Definition reply_matches (candidates : list QueueItem) (reply : option string)
  : list QueueItem :=
  match reply with
  | None => []
  | Some response =>
      let answer := Py.upper (Py.strip response) in
      if String.eqb answer "NONE" || String.eqb answer EmptyString then []
      else selected_by candidates (Py.split_on "," (Py.remove_spaces answer))
  end.

(** The verdict a reply stands for: duplicate only for the answer YES. *)
Definition reply_says_duplicate (reply : option string) : bool :=
  match reply with
  | None => false
  | Some response => String.eqb (Py.upper (Py.strip response)) "YES"
  end.

(* ================================================================= *)
(** ** Scenarios *)
(* ================================================================= *)

(** A registry with two outlets of one owner, a third that shares two
    holders with the first, and an independent fourth. *)
Definition acme_daily : SourceRecord :=
  {| src_id := "acme-daily"; src_name := "Acme Daily"; src_owner := "Acme";
     src_holders := Some [ {| holder_name := "Vanguard" |};
                           {| holder_name := "BlackRock" |} ] |}.

Definition acme_wire : SourceRecord :=
  {| src_id := "acme-wire"; src_name := "Acme Wire"; src_owner := "Acme";
     src_holders := None |}.

Definition globe : SourceRecord :=
  {| src_id := "globe"; src_name := "The Globe"; src_owner := "Globe Media";
     src_holders := Some [ {| holder_name := "BlackRock" |};
                           {| holder_name := "Vanguard" |};
                           {| holder_name := "State Street" |} ] |}.

Definition civic : SourceRecord :=
  {| src_id := "civic"; src_name := "Civic Post"; src_owner := "Civic";
     src_holders := Some [ {| holder_name := "Vanguard" |} ] |}.

Definition demo_config : Config :=
  {| sources := [acme_daily; acme_wire; globe; civic];
     max_shared_top_holders := 2;
     queue_timeout_hours := 3;
     min_confidence := 85;
     claude_model := "claude-model";
     claude_max_tokens := 300 |}.

(** 2026-01-05 09:00:00 UTC, in microseconds. *)
Definition nine_o_clock : Z := 1767603600 * MICROSECONDS.

Definition HOUR : Z := 3600 * MICROSECONDS.

Definition park_fact : string := "City council approves $2M park renovation".

Definition park_from_daily : QueueItem :=
  {| q_fact := park_fact;
     q_source_id := "acme-daily"; q_source_name := "Acme Daily";
     q_source_rating := 9 # 1; q_timestamp := nine_o_clock;
     q_confidence := 95 |}.

Definition park_from_globe : QueueItem :=
  {| q_fact := park_fact;
     q_source_id := "globe"; q_source_name := "The Globe";
     q_source_rating := 8 # 1; q_timestamp := nine_o_clock + HOUR;
     q_confidence := 90 |}.

Definition mayor_from_daily : QueueItem :=
  {| q_fact := "Mayor resigns after audit";
     q_source_id := "acme-daily"; q_source_name := "Acme Daily";
     q_source_rating := 9 # 1; q_timestamp := nine_o_clock;
     q_confidence := 92 |}.

Definition park_headline_wire : Headline :=
  {| h_text := "Council OKs huge $2M park makeover";
     h_source_id := "acme-wire"; h_source_name := "Acme Wire";
     h_source_rating := 8 # 1; h_owner := "Acme";
     h_timestamp := nine_o_clock + 300 * MICROSECONDS |}.

Definition park_headline_civic : Headline :=
  {| h_text := "Park renovation worth $2M wins council vote";
     h_source_id := "civic"; h_source_name := "Civic Post";
     h_source_rating := 9 # 1; h_owner := "Civic";
     h_timestamp := nine_o_clock + 2 * HOUR |}.

Definition park_fact_wire : string :=
  "Council approves $2M park renovation plan".

(** A morning with nothing published yet. *)
Definition quiet_world (now : Z) (stored : list QueueItem) : World :=
  {| kill_switch := false; clock := now; queue_json := Some stored;
     shown_txt := []; stories_json := []; processed_txt := [];
     current_txt := None; requests := []; journal := [] |}.

(** Later that day, with the park story published. *)
Definition park_story : Story :=
  {| s_fact := park_fact;
     s_source := [ {| ref_name := "Civic Post"; ref_rating := 9 # 1 |};
                   {| ref_name := "Acme Daily"; ref_rating := 9 # 1 |} ];
     s_audio := "../audio/audio_0.mp3" |}.

Definition world_after_park_story (now : Z) : World :=
  {| kill_switch := false; clock := now; queue_json := Some [];
     shown_txt := [get_story_hash park_fact]; stories_json := [park_story];
     processed_txt := []; current_txt := None; requests := [];
     journal := [] |}.

Definition queue_with_twins : list QueueItem :=
  [park_from_daily; mayor_from_daily; park_from_globe].

(** A reply to the extraction request that breaks off before the
    closing brace. *)
Definition broken_reply : string :=
  "{" +:+ Py.quoted "fact" +:+ ": " +:+ Py.quoted park_fact_wire +:+ ", "
  +:+ Py.quoted "confidence" +:+ ": 91, " +:+ Py.quoted "newsw".

Definition no_json : string -> option ExtractResult := fun _ => None.

(** A language model that gives the same reply to every request, and
    one that is out of reach. *)
Definition always_replies (reply : string) : nat -> Request -> option string :=
  fun _ _ => Some reply.

Definition unreachable : nat -> Request -> option string :=
  fun _ _ => None.

(** A language model that gives the listed replies, one per request,
    and fails afterwards. *)
Definition scripted (replies : list string) : nat -> Request -> option string :=
  fun n _ => replies !! n.

Definition speech_works : string -> bool := fun _ => true.

Definition no_locals (q : list QueueItem) : Locals :=
  {| queue := q; skipped_count := 0; published_count := 0 |}.

(* ================================================================= *)
(** ** Web scraping *)
(* ================================================================= *)

(** An entry of [CONFIG["sources"]] with the keys the scraper reads;
    [entry_rss] is [None] when the key [rss] is absent. *)
Record SourceEntry := {
  entry_source : SourceRecord;
  entry_rss : option string;
  entry_url : string;
  entry_scrape_selector : string;
  entry_accuracy : Q
}.

(** Which of the two fetchers speaks. *)
Inductive FetchKind := ViaRSS | ViaHTML.

(** The log records of the scraper. *)
Inductive ScrapeLog :=
| LogFetched (n : nat) (name : string) (kind : FetchKind)
| LogFetchFailed (name : string) (kind : FetchKind).

Section Scraping.

(** The feed at a URL, as the titles of its items (of its Atom entries
    when it has no item): [None] for a title that is missing or has no
    text; the whole is [None] when the request or the parsing raises. *)
Variable fetch_feed : string -> option (list (option string)).

(** The page at a URL, as the stripped texts of the elements that the
    selector finds; [None] when the request raises. *)
Variable fetch_page : string -> string -> option (list string).

(** The reading of the clock. *)
Variable now : Z.

Definition make_headline (source : SourceEntry) (text : string) : Headline :=
  {| h_text := text;
     h_source_id := src_id (entry_source source);
     h_source_name := src_name (entry_source source);
     h_source_rating := entry_accuracy source;
     h_owner := src_owner (entry_source source);
     h_timestamp := now |}.

(** The loop over [items[:10]] of [fetch_rss_headlines]. *)
Fixpoint rss_loop (source : SourceEntry) (items : list (option string))
  (headlines : list Headline) : list Headline :=
  match items with
  | [] => headlines
  | title :: rest =>
      match title with
      | Some title_text =>
          if Py.nonempty title_text
          then
            let text := Py.strip title_text in
            if (20 <? Py.len text)%nat
            then rss_loop source rest (headlines ++ [make_headline source text])
            else rss_loop source rest headlines
          else rss_loop source rest headlines
      | None => rss_loop source rest headlines
      end
  end.

Definition fetched (kind : FetchKind) (source : SourceEntry)
  (headlines : list Headline) : list ScrapeLog :=
  match headlines with
  | [] => []
  | _ => [LogFetched (length headlines) (src_name (entry_source source)) kind]
  end.

Definition fetch_rss_headlines (source : SourceEntry)
  : list Headline * list ScrapeLog :=
  match entry_rss source with
  | None => ([], [])
  | Some rss_url =>
      if negb (Py.nonempty rss_url) then ([], [])
      else
        match fetch_feed rss_url with
        | Some items =>
            let headlines := rss_loop source (firstn 10 items) [] in
            (headlines, fetched ViaRSS source headlines)
        | None =>
            ([], [LogFetchFailed (src_name (entry_source source)) ViaRSS])
        end
  end.

(** The loop over [elements[:10]] of [fetch_html_headlines]. *)
Fixpoint html_loop (source : SourceEntry) (elements : list string)
  (headlines : list Headline) : list Headline :=
  match elements with
  | [] => headlines
  | text :: rest =>
      if Py.nonempty text && (20 <? Py.len text)%nat
      then html_loop source rest (headlines ++ [make_headline source text])
      else html_loop source rest headlines
  end.

Definition fetch_html_headlines (source : SourceEntry)
  : list Headline * list ScrapeLog :=
  match fetch_page (entry_url source) (entry_scrape_selector source) with
  | Some elements =>
      let headlines := html_loop source (firstn 10 elements) [] in
      (headlines, fetched ViaHTML source headlines)
  | None => ([], [LogFetchFailed (src_name (entry_source source)) ViaHTML])
  end.

Definition fetch_headlines (source : SourceEntry)
  : list Headline * list ScrapeLog :=
  let '(headlines, logs) := fetch_rss_headlines source in
  match headlines with
  | [] =>
      let '(headlines', logs') := fetch_html_headlines source in
      (headlines', logs ++ logs')
  | _ => (headlines, logs)
  end.

(** The loop of [scrape_all_sources]; the pause between two sources is
    left out. *)
Fixpoint scrape_loop (entries : list SourceEntry)
  (all_headlines : list Headline) (logs : list ScrapeLog)
  : list Headline * list ScrapeLog :=
  match entries with
  | [] => (all_headlines, logs)
  | source :: rest =>
      let '(headlines, logs') := fetch_headlines source in
      scrape_loop rest (all_headlines ++ headlines) (logs ++ logs')
  end.

Definition scrape_all_sources (entries : list SourceEntry)
  : list Headline * list ScrapeLog :=
  scrape_loop entries [] [].

End Scraping.

(* ================================================================= *)
(** ** The RSS feed of published stories *)
(* ================================================================= *)






(* ================================================================= *)
(** ** The text log of the day, written and read back *)
(* ================================================================= *)

(** [",".join(parts)] for the names and for the scores of the sources,
    and the line that [append_daily_log] writes for a story.
    [timestamp] and [source_scores] are the formatted clock reading and
    ratings. *)
Definition daily_log_line (timestamp source_names source_scores fact : string)
  : string :=
  timestamp +:+ "|" +:+ source_names +:+ "|" +:+ source_scores +:+ "|"
  +:+ fact +:+ nl.

(** The header that [append_daily_log] writes into a new file, as the
    four lines a reader of the file gets. *)
Definition daily_log_header (today : string) : list string :=
  [ "# JTF News Daily Log" +:+ nl;
    "# Date: " +:+ today +:+ nl;
    "# Generated: UTC" +:+ nl;
    nl ].

(** What one line of the archive contributes: the sixth field of a
    line that, stripped, is not empty, is no comment and has six fields
    or more. *)
Definition line_facts (raw : string) : list string :=
  let line := Py.strip raw in
  if negb (Py.nonempty line) || Py.starts_with "#" line then []
  else
    let parts := Py.split_on "|" line in
    if (6 <=? length parts)%nat then option_list (parts !! 5%nat) else [].

(** A headline made by the scraper for [source], with a text of more
    than twenty characters. *)
Definition scraped_from (now : Z) (source : SourceEntry) (h : Headline)
  : Prop :=
  h = make_headline now source (h_text h) /\ (20 < Py.len (h_text h))%nat.

(** The loop of [get_facts_from_archive] of [backfill_podcasts.py];
    [None] stands for an exception. *)
Fixpoint facts_loop (lines : list string) (facts : list string)
  : option (list string) :=
  match lines with
  | [] => Some facts
  | raw :: rest =>
      let line := Py.strip raw in
      if negb (Py.nonempty line) || Py.starts_with "#" line
      then facts_loop rest facts
      else
        let parts := Py.split_on "|" line in
        if (6 <=? length parts)%nat
        then
          match parts !! 5%nat with
          | Some part => facts_loop rest (facts ++ [part])
          | None => None
          end
        else facts_loop rest facts
  end.

(** [archive] holds the lines of the compressed log of a date; it is
    [None] when the file does not exist or cannot be read. *)
Definition get_facts_from_archive (archive : option (list string))
  : list string :=
  match archive with
  | None => []
  | Some lines => default [] (facts_loop lines [])
  end.

(** How often a character occurs in a string. *)
Fixpoint count_char (c : ascii) (s : string) : nat :=
  match s with
  | EmptyString => 0
  | String d s' => (if Ascii.eqb c d then 1 else 0) + count_char c s'
  end.

(* ================================================================= *)
(** ** Further notions *)
(* ================================================================= *)

(** A lower-case hexadecimal digit. *)
Definition is_hex_digit (c : ascii) : Prop :=
  Py.between 48 57 (Py.ord c) || Py.between 97 102 (Py.ord c) = true.

(** The characters of a string, each with the property [P]. *)
Definition all_chars (P : ascii -> Prop) (s : string) : Prop :=
  Forall P (list_ascii_of_string s).

(** The log records for the items that a cleaning removes. *)
Definition expired_records (cutoff : Z) (queue : list QueueItem)
  : list LogRecord :=
  (fun item => LogExpired (Py.take 50 (q_fact item)))
    <$> List.filter (fun item => negb (fresh cutoff item)) queue.

(** The request [extract_fact] sends for a headline. *)
Definition extraction_request (cfg : Config) (prompt headline : string)
  : Request :=
  {| req_model := claude_model cfg;
     req_max_tokens := claude_max_tokens cfg;
     req_content := prompt +:+ headline |}.

(** A character other than the double quote. *)
Definition not_dquote (c : ascii) : Prop := c <> Py.dquote.


(** From [w] to [w']: the kill switch, the clock and the queue file are
    as before, at most [reqs] requests were sent, exactly [pubs] stories
    and as many shown hashes were added, and the lists of requests,
    stories, shown hashes and processed headlines were only added to. *)
Definition advance (reqs pubs : nat) (w w' : World) : Prop :=
  kill_switch w' = kill_switch w /\ clock w' = clock w
  /\ queue_json w' = queue_json w
  /\ requests w `prefix_of` requests w'
  /\ (length (requests w') <= length (requests w) + reqs)%nat
  /\ stories_json w `prefix_of` stories_json w'
  /\ length (stories_json w') = (length (stories_json w) + pubs)%nat
  /\ shown_txt w `prefix_of` shown_txt w'
  /\ length (shown_txt w') = (length (shown_txt w) + pubs)%nat
  /\ processed_txt w `prefix_of` processed_txt w'.

(** A registry in which the id of Acme Daily is listed a second time,
    for a new owner. *)
Definition acme_daily_sold : SourceRecord :=
  {| src_id := "acme-daily"; src_name := "The Daily"; src_owner := "Indie";
     src_holders := None |}.

Definition relisted_config : Config :=
  {| sources := [acme_daily; acme_wire; acme_daily_sold];
     max_shared_top_holders := 2;
     queue_timeout_hours := 3;
     min_confidence := 85;
     claude_model := "claude-model";
     claude_max_tokens := 300 |}.

(** A reply that breaks off and whose fact quotes a word. *)
Definition escaped_reply : string :=
  "{" +:+ Py.quoted "fact" +:+ ": "
  +:+ String Py.dquote ("Mayor says \" +:+ Py.quoted "no\" +:+ " to plan")
  +:+ String Py.dquote ", ".

(** A reply that breaks off, with a low confidence. *)
Definition weak_reply : string :=
  "{" +:+ Py.quoted "fact" +:+ ": " +:+ Py.quoted park_fact_wire +:+ ", "
  +:+ Py.quoted "confidence" +:+ ": 40, ".


(** The scraping keys of the four sources: the first has a feed, the
    second none, the feed of the third is out of reach, and the feed
    address of the fourth is empty. *)
Definition entry_of (s : SourceRecord) (rss : option string) : SourceEntry :=
  {| entry_source := s; entry_rss := rss;
     entry_url := "https://" +:+ src_id s;
     entry_scrape_selector := "h2";
     entry_accuracy := 9 # 1 |}.

Definition demo_entries : list SourceEntry :=
  [ entry_of acme_daily (Some "daily.xml");
    entry_of acme_wire None;
    entry_of globe (Some "globe.xml");
    entry_of civic (Some EmptyString) ].

Definition demo_feed (url : string) : option (list (option string)) :=
  if String.eqb url "daily.xml"
  then Some [ Some "  Council OKs huge $2M park makeover  "; None;
              Some "Short title" ]
  else None.

Definition demo_page (url selector : string) : option (list string) :=
  if String.eqb url "https://civic"
  then Some [ "Park renovation worth $2M wins council vote"; "Weather" ]
  else Some [].

(** The fields of the log line of the published park story. *)
Definition park_log_fields : string * string * string * string :=
  ("2026-01-05T11:00:00.000000+00:00", "Civic Post,Acme Daily", "9,9",
   park_fact_wire).


Definition closed_config : Config :=
  {| sources := [acme_daily; acme_wire; globe; civic];
     max_shared_top_holders := 0;
     queue_timeout_hours := 3;
     min_confidence := 85;
     claude_model := "claude-model";
     claude_max_tokens := 300 |}.

(* ================================================================= *)
(** * Properties *)
(* ================================================================= *)

(** ** Python primitives on test vectors *)

Example md5_abc : Py.md5_hexdigest "abc" = "900150983cd24fb0d6963f7d28e17f72".
Proof. vm_compute. reflexivity. Qed.

Example md5_two_blocks :
  Py.md5_hexdigest
    "aaaaaaaaaaaaaaaaaaaaaaaaaaaaaaaaaaaaaaaaaaaaaaaaaaaaaaaaaaaaaaaaaaaaaa"
  = "0f5c6c4e740bfcc08c3c26ccb2673d46".
Proof. vm_compute. reflexivity. Qed.

Example md5_e_acute :
  Py.md5_hexdigest ("caf" +:+ String (ascii_of_nat 233) EmptyString)
  = "07117fe4a1ebd544965dc19573183da2".
Proof. vm_compute. reflexivity. Qed.

Example story_hash_ignores_case :
  get_story_hash "Shooting in X" = "bcb2a71cac8c"
  /\ get_story_hash "shooting in x" = "bcb2a71cac8c".
Proof. vm_compute. split; reflexivity. Qed.

Example int_on_pieces :
  Py.int <$> ["1"; "+1"; "-1"; "1_0"; "_1"; "1__0"; ""; "+"; "0_1"; "01";
              "+ 1"; "1_"; "-0"; "--1"; "1.0"; "0X1"]
  = [Some 1; Some 1; Some (-1); Some 10; None; None; None; None; Some 1;
     Some 1; None; None; Some 0; None; None; None].
Proof. vm_compute. reflexivity. Qed.

Example patterns_on_a_reply :
  Py.search_fact broken_reply = Some park_fact_wire
  /\ Py.search_confidence broken_reply = Some "91".
Proof. vm_compute. split; reflexivity. Qed.

Example find_and_slice :
  Py.find "{" "x" = -1 /\ Py.rfind "}" "a}b}" = 3
  /\ Py.slice 1 2 "abc" = "b" /\ Py.slice 2 1 "abc" = EmptyString
  /\ Py.split_on "," "a,,b," = ["a"; EmptyString; "b"; EmptyString]
  /\ Py.split_on "," EmptyString = [EmptyString].
Proof. vm_compute. repeat split; reflexivity. Qed.

(** ** The lexical prefilter *)

Lemma has_word_overlap_comm (a b : string) (t : Q) :
  has_word_overlap a b t = has_word_overlap b a t.
Proof.
  unfold has_word_overlap.
  rewrite (orb_comm (bool_decide (word_set a = ∅))).
  rewrite (Nat.min_comm (size (word_set a))).
  by rewrite (comm_L (∩) (word_set a)).
Qed.

Lemma has_word_overlap_empty_l (a b : string) (t : Q) :
  word_set a = ∅ -> has_word_overlap a b t = false.
Proof.
  intros E. unfold has_word_overlap.
  by rewrite (bool_decide_eq_true_2 _ E).
Qed.

Lemma has_word_overlap_empty_r (a b : string) (t : Q) :
  word_set b = ∅ -> has_word_overlap a b t = false.
Proof.
  intros E. rewrite has_word_overlap_comm.
  by apply has_word_overlap_empty_l.
Qed.

(** A fraction of at most one of a count never exceeds the count. *)
Lemma scaled_count_le (n : nat) (t : Q) :
  (t <= 1)%Q -> (inject_Z (Z.of_nat n) * t <= inject_Z (Z.of_nat n))%Q.
Proof.
  intros Ht. destruct t as [p q]. unfold Qle in *. simpl in *.
  rewrite Z.mul_1_r in Ht. nia.
Qed.

Lemma has_word_overlap_self (f : string) (t : Q) :
  (t <= 1)%Q -> word_set f ≠ ∅ -> has_word_overlap f f t = true.
Proof.
  intros Ht Hne. unfold has_word_overlap.
  rewrite (bool_decide_eq_false_2 _ Hne). simpl.
  rewrite (idemp_L (∩)), Nat.min_id.
  apply Qle_bool_iff, scaled_count_le, Ht.
Qed.

Lemma default_threshold_le_1 : (DEFAULT_THRESHOLD <= 1)%Q.
Proof. unfold DEFAULT_THRESHOLD, Qle. simpl. lia. Qed.

Example split_on_blanks :
  Py.split "  City council   approves $2M park " =
  ["City"; "council"; "approves"; "$2M"; "park"].
Proof. reflexivity. Qed.

Example overlap_of_two_reports :
  has_word_overlap "City council approves $2M park renovation"
                   "Council approves park funding" DEFAULT_THRESHOLD = true.
Proof. vm_compute. reflexivity. Qed.

(** C2, as stated: a fact can be non-empty and still have no word of
    three characters, and then it does not overlap with itself. *)
Lemma self_overlap_fails_without_words :
  exists f : string,
    f <> EmptyString /\ has_word_overlap f f DEFAULT_THRESHOLD = false.
Proof.
  exists "It is so". split; [discriminate|]. vm_compute. reflexivity.
Qed.

(** C2, amended: a fact overlaps with itself as soon as its word set is
    not empty; the prefilter is symmetric; and it answers no whenever
    one of the two word sets is empty. *)
Theorem has_word_overlap_laws (f a b : string) :
  (word_set f ≠ ∅ -> has_word_overlap f f DEFAULT_THRESHOLD = true)
  /\ has_word_overlap a b DEFAULT_THRESHOLD
     = has_word_overlap b a DEFAULT_THRESHOLD
  /\ (word_set a = ∅ \/ word_set b = ∅ ->
      has_word_overlap a b DEFAULT_THRESHOLD = false).
Proof.
  split; [|split].
  - apply has_word_overlap_self, default_threshold_le_1.
  - apply has_word_overlap_comm.
  - intros [E|E].
    + by apply has_word_overlap_empty_l.
    + by apply has_word_overlap_empty_r.
Qed.

Lemma has_word_overlap_laws_witness :
  has_word_overlap "Council approves park" "Council approves park"
    DEFAULT_THRESHOLD = true
  /\ has_word_overlap "Council approves park" "of it" DEFAULT_THRESHOLD
     = has_word_overlap "of it" "Council approves park" DEFAULT_THRESHOLD
  /\ has_word_overlap "Council approves park" "of it" DEFAULT_THRESHOLD
     = false.
Proof.
  destruct (has_word_overlap_laws "Council approves park"
              "Council approves park" "of it") as (Hself & Hsym & Hempty).
  split; [|split].
  - apply Hself. vm_compute. discriminate.
  - exact Hsym.
  - apply Hempty. right. vm_compute. reflexivity.
Defined.

(** ** The source registry and the independence test *)

Section Independence.

Variable CONFIG : Config.

Lemma sources_by_id_snoc (srcs : list SourceRecord) (s : SourceRecord) :
  sources_by_id (srcs ++ [s]) = <[src_id s := s]> (sources_by_id srcs).
Proof. unfold sources_by_id. by rewrite fold_left_app. Qed.

(** An id is absent from the dictionary exactly when no source has it. *)
Lemma sources_by_id_None (srcs : list SourceRecord) (a : string) :
  sources_by_id srcs !! a = None <-> a ∉ src_id <$> srcs.
Proof.
  induction srcs as [|s srcs IH] using rev_ind.
  - split; [intros _; apply not_elem_of_nil | intros _; apply lookup_empty].
    
  - rewrite sources_by_id_snoc, lookup_insert_None, IH, fmap_app.
    rewrite not_elem_of_app. simpl. rewrite not_elem_of_cons.
    split.
    + intros [H1 H2]. split; [done|]. split; [congruence|apply not_elem_of_nil].
    + intros [H1 [H2 _]]. split; [done|congruence].
Qed.

(** What the dictionary holds under an id is a source with that id. *)
Lemma sources_by_id_Some (srcs : list SourceRecord) (a : string)
  (s : SourceRecord) :
  sources_by_id srcs !! a = Some s -> s ∈ srcs /\ src_id s = a.
Proof.
  induction srcs as [|s' srcs IH] using rev_ind.
  - unfold sources_by_id. simpl. by rewrite lookup_empty.
  - rewrite sources_by_id_snoc, lookup_insert_Some, elem_of_app.
    intros [[E1 E2]|[_ H]].
    + subst. split; [right; apply list_elem_of_singleton|]; done.
    + destruct (IH H). auto.
Qed.

Lemma are_sources_unrelated_comm (a b : string) :
  are_sources_unrelated CONFIG a b = are_sources_unrelated CONFIG b a.
Proof.
  unfold are_sources_unrelated.
  destruct (sources_by_id (sources CONFIG) !! a) as [s1|],
           (sources_by_id (sources CONFIG) !! b) as [s2|]; try done.
  rewrite (comm_L (∩) (holder_names s1)).
  destruct (decide (src_owner s1 = src_owner s2)) as [E|N].
  - by rewrite !bool_decide_eq_true_2.
  - by rewrite !bool_decide_eq_false_2.
Qed.

Lemma are_sources_unrelated_irrefl (a : string) :
  are_sources_unrelated CONFIG a a = false.
Proof.
  unfold are_sources_unrelated.
  destruct (sources_by_id (sources CONFIG) !! a) as [s|]; [|done].
  by rewrite bool_decide_eq_true_2.
Qed.

(** C4: the independence test answers no when one of the two ids is not
    the id of a configured source, no when the two sources have the same
    owner, no when they share at least [max_shared_top_holders] holder
    names, and yes in every other case. *)
Theorem are_sources_unrelated_cases (a b : string) :
  (a ∉ src_id <$> sources CONFIG \/ b ∉ src_id <$> sources CONFIG ->
   are_sources_unrelated CONFIG a b = false)
  /\ (forall s1 s2,
        sources_by_id (sources CONFIG) !! a = Some s1 ->
        sources_by_id (sources CONFIG) !! b = Some s2 ->
        (src_owner s1 = src_owner s2 ->
         are_sources_unrelated CONFIG a b = false)
        /\ (max_shared_top_holders CONFIG
              <= Z.of_nat (size (holder_names s1 ∩ holder_names s2)) ->
            are_sources_unrelated CONFIG a b = false)
        /\ (src_owner s1 ≠ src_owner s2 ->
            Z.of_nat (size (holder_names s1 ∩ holder_names s2))
              < max_shared_top_holders CONFIG ->
            are_sources_unrelated CONFIG a b = true)).
Proof.
  split.
  - unfold are_sources_unrelated.
    intros [H|H]; apply sources_by_id_None in H; rewrite H; [done|].
    by destruct (sources_by_id (sources CONFIG) !! a).
  - intros s1 s2 H1 H2. unfold are_sources_unrelated.
    rewrite H1, H2.
    split; [|split].
    + intros E. by rewrite bool_decide_eq_true_2.
    + intros Hle. case_bool_decide; [done|].
      by rewrite (proj2 (Z.leb_le _ _) Hle).
    + intros Hne Hlt. rewrite bool_decide_eq_false_2 by done.
      by rewrite (proj2 (Z.leb_gt _ _) Hlt).
Qed.

(** C5: the independence test is symmetric, and no id, configured or
    not, is independent of itself. *)
Theorem are_sources_unrelated_sym_irrefl (a b : string) :
  are_sources_unrelated CONFIG a b = are_sources_unrelated CONFIG b a
  /\ are_sources_unrelated CONFIG a a = false.
Proof.
  split; [apply are_sources_unrelated_comm|apply are_sources_unrelated_irrefl].
Qed.

End Independence.

Lemma are_sources_unrelated_cases_witness :
  are_sources_unrelated demo_config "acme-daily" "unknown" = false
  /\ are_sources_unrelated demo_config "acme-daily" "acme-wire" = false
  /\ are_sources_unrelated demo_config "acme-daily" "globe" = false
  /\ are_sources_unrelated demo_config "acme-daily" "civic" = true.
Proof.
  split; [|split; [|split]].
  - apply (are_sources_unrelated_cases demo_config "acme-daily" "unknown").
    right. apply sources_by_id_None. vm_compute. reflexivity.
  - destruct (proj2 (are_sources_unrelated_cases demo_config
                       "acme-daily" "acme-wire") acme_daily acme_wire)
      as (Hown & _ & _); [vm_compute; reflexivity..|].
    apply Hown. reflexivity.
  - destruct (proj2 (are_sources_unrelated_cases demo_config
                       "acme-daily" "globe") acme_daily globe)
      as (_ & Hshared & _); [vm_compute; reflexivity..|].
    apply Hshared. vm_compute. discriminate.
  - destruct (proj2 (are_sources_unrelated_cases demo_config
                       "acme-daily" "civic") acme_daily civic)
      as (_ & _ & Hfree); [vm_compute; reflexivity..|].
    apply Hfree; [discriminate|vm_compute; reflexivity].
Defined.

(** ** Running computations *)

Ltac run :=
  unfold bind, ret, raise, log, modify, gets, try_except,
    try_except_ValueError, logged in *; simpl in *.

Lemma filter_nil_iff {A} (f : A -> bool) (l : list A) :
  List.filter f l = [] <-> (forall x, x ∈ l -> f x = false).
Proof.
  induction l as [|x l IH]; simpl.
  - split; [intros _ y Hy; by apply elem_of_nil in Hy|done].
  - destruct (f x) eqn:E.
    + split; [done|]. intros H. specialize (H x (list_elem_of_here _ _)).
      congruence.
    + rewrite IH. split.
      * intros H y [->|Hy]%elem_of_cons; auto.
      * intros H y Hy. apply H. by right.
Qed.

Lemma elem_of_filter_bool {A} (f : A -> bool) (l : list A) (x : A) :
  x ∈ List.filter f l <-> x ∈ l /\ f x = true.
Proof. rewrite !list_elem_of_In. apply filter_In. Qed.

(** ** No shortlist, no request *)

Section NoShortlist.

Variable CONFIG : Config.
Variable messages_create : nat -> Request -> option string.

Lemma find_matching_stories_no_candidates (fact : string)
  (queue : list QueueItem) (w : World) :
  overlapping_items fact queue = [] ->
  find_matching_stories CONFIG messages_create fact queue w = (Ok [], w).
Proof.
  intros E. unfold find_matching_stories. rewrite E.
  by destruct queue.
Qed.

Lemma is_duplicate_batch_no_candidates (fact : string)
  (published : list string) (w : World) :
  overlapping_facts fact published = [] ->
  is_duplicate_batch CONFIG messages_create fact published w = (Ok false, w).
Proof.
  intros E. unfold is_duplicate_batch. rewrite E.
  by destruct published.
Qed.

(** C3: when no queue item, respectively no published fact, passes the
    prefilter against the new fact, the matcher returns the empty list
    and the batch duplicate check returns false, whatever the language
    model would answer, and the world, which holds the requests sent, is
    as before; the same holds for an empty queue and an empty list of
    published facts, and for the whole duplicate check of a fact whose
    hash was not shown today. *)
Theorem empty_shortlist_sends_no_request (fact : string)
  (queue : list QueueItem) (published : list string) (w : World) :
  ((forall item, item ∈ queue ->
      has_word_overlap fact (q_fact item) DEFAULT_THRESHOLD = false) ->
   find_matching_stories CONFIG messages_create fact queue w = (Ok [], w))
  /\ ((forall p, p ∈ published ->
         has_word_overlap fact p DEFAULT_THRESHOLD = false) ->
      is_duplicate_batch CONFIG messages_create fact published w
      = (Ok false, w))
  /\ find_matching_stories CONFIG messages_create fact [] w = (Ok [], w)
  /\ is_duplicate_batch CONFIG messages_create fact [] w = (Ok false, w)
  /\ (get_story_hash fact ∉ hash_lines (shown_txt w) ->
      (forall s, s ∈ stories_json w ->
         has_word_overlap fact (s_fact s) DEFAULT_THRESHOLD = false) ->
      is_duplicate CONFIG messages_create fact w = (Ok false, w)).
Proof.
  repeat split; try done.
  - intros H. apply find_matching_stories_no_candidates.
    by apply filter_nil_iff.
  - intros H. apply is_duplicate_batch_no_candidates.
    by apply filter_nil_iff.
  - intros Hnew H. unfold is_duplicate, load_shown_hashes,
      load_published_stories, bind, gets.
    rewrite bool_decide_eq_false_2 by done.
    apply is_duplicate_batch_no_candidates, filter_nil_iff.
    intros p (s & -> & Hin)%list_elem_of_fmap. by apply H.
Qed.

End NoShortlist.

Lemma empty_shortlist_sends_no_request_witness :
  find_matching_stories demo_config (always_replies "1")
    "Senate passes budget bill" [park_from_daily]
    (quiet_world nine_o_clock [])
  = (Ok [], quiet_world nine_o_clock [])
  /\ is_duplicate_batch demo_config (always_replies "YES")
       "Senate passes budget bill" [park_fact] (quiet_world nine_o_clock [])
     = (Ok false, quiet_world nine_o_clock []).
Proof.
  destruct (empty_shortlist_sends_no_request demo_config (always_replies "1")
              "Senate passes budget bill" [park_from_daily] [park_fact]
              (quiet_world nine_o_clock [])) as (Hq & _).
  destruct (empty_shortlist_sends_no_request demo_config (always_replies "YES")
              "Senate passes budget bill" [park_from_daily] [park_fact]
              (quiet_world nine_o_clock [])) as (_ & Hp & _).
  split.
  - apply Hq. intros item ->%list_elem_of_singleton. vm_compute. reflexivity.
  - apply Hp. intros p ->%list_elem_of_singleton. vm_compute. reflexivity.
Defined.

(** ** Replies of the language model *)

Section Replies.

Variable CONFIG : Config.
Variable messages_create : nat -> Request -> option string.

Lemma in_range_shift (n len : Z) :
  (0 <=? n - 1) && (n - 1 <? len) = (1 <=? n) && (n <=? len).
Proof.
  destruct (Z.leb_spec 0 (n - 1)), (Z.ltb_spec (n - 1) len),
    (Z.leb_spec 1 n), (Z.leb_spec n len); simpl; try reflexivity; lia.
Qed.

(** The loop over the pieces raises nothing, leaves the world alone and
    appends what the pieces select. *)
Lemma parse_numbers_selected (candidates : list QueueItem)
  (pieces : list string) (matches : list QueueItem) (w : World) :
  parse_numbers candidates pieces matches w
  = (Ok (matches ++ selected_by candidates pieces), w).
Proof.
  revert matches. induction pieces as [|piece rest IH]; intros matches.
  - simpl. unfold ret. by rewrite app_nil_r.
  - simpl. unfold bind at 1. unfold try_except_ValueError, int, bind.
    destruct (Py.int piece) as [n|]; unfold ret, raise; simpl.
    + rewrite in_range_shift.
      destruct ((1 <=? n) && (n <=? Z.of_nat (length candidates))) eqn:R.
      * apply andb_prop in R as [R1%Z.leb_le R2%Z.leb_le].
        unfold item_at.
        destruct (candidates !! Z.to_nat (n - 1)) as [item|] eqn:L.
        -- unfold ret. rewrite IH. simpl. by rewrite <- app_assoc.
        -- apply lookup_ge_None in L. lia.
      * rewrite IH. done.
    + rewrite IH. done.
Qed.

Lemma nonempty_eqb (s : string) :
  negb (Py.nonempty s) = String.eqb s EmptyString.
Proof. by destruct s. Qed.

(** With a shortlist, the matcher sends one request and returns what
    the reply stands for. *)
Lemma find_matching_stories_reply (fact : string) (queue : list QueueItem)
  (w : World) :
  overlapping_items fact queue ≠ [] ->
  exists w',
    find_matching_stories CONFIG messages_create fact queue w
    = (Ok (reply_matches (overlapping_items fact queue)
             (messages_create (length (requests w))
                (matching_request CONFIG fact (overlapping_items fact queue)))),
       w')
    /\ same_files w w'.
Proof.
  intros Hne. unfold find_matching_stories.
  destruct queue as [|q0 queue']; [done|].
  destruct (overlapping_items fact (q0 :: queue')) as [|c cs] eqn:E; [done|].
  run. unfold claude, matching_request, reply_matches. simpl.
  destruct (messages_create _ _) as [response|]; simpl.
  - rewrite nonempty_eqb.
    destruct (_ || _).
    + eexists. split; [reflexivity|]. by repeat split.
    + rewrite parse_numbers_selected. simpl.
      eexists. split; [reflexivity|]. by repeat split.
  - eexists. split; [reflexivity|]. by repeat split.
Qed.

(** With a shortlist, the batch duplicate check sends one request and
    returns the verdict the reply stands for. *)
Lemma is_duplicate_batch_reply (fact : string) (published : list string)
  (w : World) :
  overlapping_facts fact published ≠ [] ->
  exists w',
    is_duplicate_batch CONFIG messages_create fact published w
    = (Ok (reply_says_duplicate
             (messages_create (length (requests w))
                (duplicate_request CONFIG fact
                   (overlapping_facts fact published)))),
       w')
    /\ same_files w w'.
Proof.
  intros Hne. unfold is_duplicate_batch.
  destruct published as [|p0 published']; [done|].
  destruct (overlapping_facts fact (p0 :: published')) as [|c cs] eqn:E;
    [done|].
  run. unfold claude, duplicate_request, reply_says_duplicate. simpl.
  destruct (messages_create _ _) as [response|]; simpl.
  - destruct (String.eqb _ _); simpl;
      (eexists; split; [reflexivity|]; by repeat split).
  - eexists. split; [reflexivity|]. by repeat split.
Qed.

End Replies.

(** An entry is selected exactly when some piece reads as an integer
    within 1..|shortlist| that numbers it. *)
Lemma elem_of_selected_by (candidates : list QueueItem) (pieces : list string)
  (item : QueueItem) :
  item ∈ selected_by candidates pieces <->
  exists piece n,
    piece ∈ pieces /\ Py.int piece = Some n
    /\ 1 <= n <= Z.of_nat (length candidates)
    /\ candidates !! Z.to_nat (n - 1) = Some item.
Proof.
  unfold selected_by. rewrite list_elem_of_In, in_flat_map. split.
  - intros (piece & Hin & Hitem). exists piece.
    destruct (Py.int piece) as [n|]; [|by destruct Hitem].
    destruct ((1 <=? n) && (n <=? Z.of_nat (length candidates))) eqn:R;
      [|by destruct Hitem].
    apply andb_prop in R as [R1%Z.leb_le R2%Z.leb_le].
    exists n. apply list_elem_of_In in Hin, Hitem.
    destruct (candidates !! Z.to_nat (n - 1)) as [item'|]; simpl in Hitem.
    + apply list_elem_of_singleton in Hitem as ->. auto.
    + by apply elem_of_nil in Hitem.
  - intros (piece & n & Hin & Hint & [R1 R2] & Hat).
    exists piece. split; [by apply list_elem_of_In|].
    rewrite Hint, (proj2 (Z.leb_le _ _) R1), (proj2 (Z.leb_le _ _) R2), Hat.
    simpl. by left.
Qed.

(** C8: whatever the language model replies, and also when the call
    fails, the matcher returns a list and the batch duplicate check a
    boolean, without raising.  The list is empty when the call fails and
    for the reply NONE or an empty reply; otherwise it holds the
    shortlist entries numbered by the pieces of the reply that read as
    integers within 1..|shortlist|, pieces that are no integers or are
    out of that range selecting nothing.  The boolean is true only for
    the reply YES. *)
Theorem oracle_replies_never_raise (CONFIG : Config)
  (messages_create : nat -> Request -> option string)
  (fact : string) (queue : list QueueItem) (published : list string)
  (w : World) :
  (exists w',
     find_matching_stories CONFIG messages_create fact queue w
     = (Ok match overlapping_items fact queue with
           | [] => []
           | candidates =>
               reply_matches candidates
                 (messages_create (length (requests w))
                    (matching_request CONFIG fact candidates))
           end, w'))
  /\ (exists w',
        is_duplicate_batch CONFIG messages_create fact published w
        = (Ok match overlapping_facts fact published with
              | [] => false
              | candidates =>
                  reply_says_duplicate
                    (messages_create (length (requests w))
                       (duplicate_request CONFIG fact candidates))
              end, w'))
  /\ (forall candidates pieces item,
        item ∈ selected_by candidates pieces <->
        exists piece n,
          piece ∈ pieces /\ Py.int piece = Some n
          /\ 1 <= n <= Z.of_nat (length candidates)
          /\ candidates !! Z.to_nat (n - 1) = Some item).
Proof.
  split; [|split].
  - destruct (overlapping_items fact queue) as [|c cs] eqn:E.
    + exists w. by apply find_matching_stories_no_candidates.
    + destruct (find_matching_stories_reply CONFIG messages_create fact
                  queue w) as (w' & Hrun & _); [by rewrite E|].
      exists w'. by rewrite Hrun, E.
  - destruct (overlapping_facts fact published) as [|c cs] eqn:E.
    + exists w. by apply is_duplicate_batch_no_candidates.
    + destruct (is_duplicate_batch_reply CONFIG messages_create fact
                  published w) as (w' & Hrun & _); [by rewrite E|].
      exists w'. by rewrite Hrun, E.
  - apply elem_of_selected_by.
Qed.

Example reply_with_noise :
  fst (find_matching_stories demo_config
         (always_replies " 2, x, 7, 0, -1,1_, 1 ") park_fact
         [park_from_daily; mayor_from_daily; park_from_globe]
         (quiet_world nine_o_clock []))
  = Ok [park_from_globe; park_from_daily].
Proof. vm_compute. reflexivity. Qed.

Example reply_none :
  fst (find_matching_stories demo_config (always_replies "none") park_fact
         [park_from_daily] (quiet_world nine_o_clock []))
  = Ok [].
Proof. vm_compute. reflexivity. Qed.

Example reply_prose :
  fst (find_matching_stories demo_config
         (always_replies "I think the first one matches.") park_fact
         [park_from_daily] (quiet_world nine_o_clock []))
  = Ok [].
Proof. vm_compute. reflexivity. Qed.

Example no_reply :
  fst (find_matching_stories demo_config unreachable park_fact
         [park_from_daily] (quiet_world nine_o_clock []))
  = Ok []
  /\ fst (is_duplicate_batch demo_config unreachable park_fact
            [park_fact] (quiet_world nine_o_clock []))
     = Ok false.
Proof. vm_compute. split; reflexivity. Qed.

(** ** Queue expiry *)

Section Expiry.

Variable CONFIG : Config.
Variable FACT_EXTRACTION_PROMPT : string.
Variable messages_create : nat -> Request -> option string.
Variable json_loads : string -> option ExtractResult.
Variable text_to_speech : string -> bool.

(** The loop keeps, in order, the items younger than the cutoff; it
    changes only the log. *)
Lemma clean_loop_filter (cutoff : Z) (queue cleaned : list QueueItem)
  (w : World) :
  exists w',
    clean_loop cutoff queue cleaned w
    = (Ok (cleaned ++ List.filter (fresh cutoff) queue), w')
    /\ same_files w w' /\ requests w' = requests w.
Proof.
  revert cleaned w. induction queue as [|item rest IH]; intros cleaned w.
  - exists w. simpl. unfold ret. rewrite app_nil_r. by repeat split.
  - simpl. unfold fresh at 1. destruct (cutoff <? q_timestamp item).
    + destruct (IH (cleaned ++ [item]) w) as (w' & Hrun & Hfiles).
      exists w'. rewrite Hrun. simpl. by rewrite <- app_assoc.
    + run.
      destruct (IH cleaned
                  (set_journal (journal w ++ [LogExpired (Py.take 50 (q_fact item))]) w))
        as (w' & Hrun & Hfiles & Hreq).
      exists w'. split; [exact Hrun|]. split; [|exact Hreq].
      unfold same_files in *. simpl in *. exact Hfiles.
Qed.

Lemma clean_expired_queue_filter (queue : list QueueItem) (w : World) :
  exists w',
    clean_expired_queue CONFIG queue w
    = (Ok (List.filter (fresh (clock w - timeout_microseconds CONFIG)) queue),
       w')
    /\ same_files w w' /\ requests w' = requests w.
Proof.
  unfold clean_expired_queue. run.
  destruct (clean_loop_filter
              (clock w - queue_timeout_hours CONFIG * 3600 * MICROSECONDS)
              queue [] w) as (w' & Hrun & Hfiles).
  exists w'. split; [|exact Hfiles]. exact Hrun.
Qed.

(** C6: cleaning returns a queue that keeps every item cleaned strictly
    before its time stamp plus the timeout and holds no item cleaned
    strictly after it; and a cycle whose kill switch is off hands to the
    processing of the headlines the stored queue cleaned in this way, so
    that no item older than the timeout is left when the first candidate
    is looked at. *)
Theorem queue_expiry (queue : list QueueItem) (headlines : list Headline)
  (w : World) :
  (exists cleaned w',
     clean_expired_queue CONFIG queue w = (Ok cleaned, w')
     /\ (forall item, item ∈ queue ->
           clock w < q_timestamp item + timeout_microseconds CONFIG ->
           item ∈ cleaned)
     /\ (forall item,
           q_timestamp item + timeout_microseconds CONFIG < clock w ->
           item ∉ cleaned))
  /\ (kill_switch w = false ->
      exists cleaned w',
        process_cycle CONFIG FACT_EXTRACTION_PROMPT messages_create
          json_loads text_to_speech headlines w
        = process_headlines CONFIG FACT_EXTRACTION_PROMPT messages_create
            json_loads text_to_speech headlines cleaned w'
        /\ same_files w w'
        /\ (forall item, item ∈ cleaned <->
              item ∈ default [] (queue_json w)
              /\ clock w < q_timestamp item + timeout_microseconds CONFIG)).
Proof.
  split.
  - destruct (clean_expired_queue_filter queue w) as (w' & Hrun & _).
    eexists _, w'. split; [exact Hrun|]. split.
    + intros item Hin Hlt. apply elem_of_filter_bool. split; [done|].
      unfold fresh. apply Z.ltb_lt. lia.
    + intros item Hlt [_ Hf]%elem_of_filter_bool.
      unfold fresh in Hf. apply Z.ltb_lt in Hf. lia.
  - intros Hoff. unfold process_cycle, load_queue.
    unfold bind, log, modify, gets, ret.
    cbn [kill_switch queue_json set_journal]. rewrite Hoff.
    destruct (clean_expired_queue_filter (default [] (queue_json w))
                (set_journal (journal w ++ [LogStartingCycle]) w))
      as (w' & Hrun & Hfiles & _).
    cbn [queue_json set_journal] in *. rewrite Hrun.
    eexists _, w'. split; [reflexivity|]. split; [exact Hfiles|].
    cbn [clock set_journal].
    intros item. rewrite elem_of_filter_bool. unfold fresh.
    rewrite Z.ltb_lt. split; intros [? ?]; (split; [done|lia]).
Qed.

End Expiry.

Lemma queue_expiry_witness :
  (exists cleaned w',
     clean_expired_queue demo_config [park_from_daily; park_from_globe]
       (quiet_world (nine_o_clock + 3 * HOUR - 1) []) = (Ok cleaned, w')
     /\ park_from_daily ∈ cleaned)
  /\ (exists cleaned w',
        clean_expired_queue demo_config [park_from_daily; park_from_globe]
          (quiet_world (nine_o_clock + 3 * HOUR + 1) []) = (Ok cleaned, w')
        /\ (park_from_daily ∉ cleaned) /\ (park_from_globe ∈ cleaned)).
Proof.
  split.
  - destruct (proj1 (queue_expiry demo_config "Extract: " unreachable
                       (fun _ => None) speech_works
                       [park_from_daily; park_from_globe] []
                       (quiet_world (nine_o_clock + 3 * HOUR - 1) [])))
      as (cleaned & w' & Hrun & Hkeep & _).
    exists cleaned, w'. split; [exact Hrun|].
    apply Hkeep; [by left|]. vm_compute. reflexivity.
  - destruct (proj1 (queue_expiry demo_config "Extract: " unreachable
                       (fun _ => None) speech_works
                       [park_from_daily; park_from_globe] []
                       (quiet_world (nine_o_clock + 3 * HOUR + 1) [])))
      as (cleaned & w' & Hrun & Hkeep & Hdrop).
    exists cleaned, w'. split; [exact Hrun|]. split.
    + apply Hdrop. vm_compute. reflexivity.
    + apply Hkeep; [right; by left|]. vm_compute. reflexivity.
Defined.

(** A cycle without headlines one microsecond before and one after the
    three hours of the first item are over. *)
Example cycle_just_before_timeout :
  queue_json
    (snd (process_cycle demo_config "Extract: " unreachable (fun _ => None)
            speech_works []
            (quiet_world (nine_o_clock + 3 * HOUR - 1)
               [park_from_daily; park_from_globe])))
  = Some [park_from_daily; park_from_globe].
Proof. vm_compute. reflexivity. Qed.

Example cycle_just_after_timeout :
  queue_json
    (snd (process_cycle demo_config "Extract: " unreachable (fun _ => None)
            speech_works []
            (quiet_world (nine_o_clock + 3 * HOUR + 1)
               [park_from_daily; park_from_globe])))
  = Some [park_from_globe].
Proof. vm_compute. reflexivity. Qed.

(** ** The decision for one candidate fact *)

Lemma same_files_refl (w : World) : same_files w w.
Proof. by repeat split. Qed.

Lemma same_files_trans (w1 w2 w3 : World) :
  same_files w1 w2 -> same_files w2 w3 -> same_files w1 w3.
Proof.
  unfold same_files. intros (?&?&?&?&?&?&?) (?&?&?&?&?&?&?).
  repeat split; congruence.
Qed.

Lemma same_files_logged (r : LogRecord) (w : World) :
  same_files w (logged r w).
Proof. by repeat split. Qed.

Section Candidate.

Variable CONFIG : Config.
Variable messages_create : nat -> Request -> option string.
Variable text_to_speech : string -> bool.

(** The matcher always returns, and touches no file. *)
Lemma find_matching_stories_returns (fact : string) (queue : list QueueItem)
  (w : World) :
  exists matches w',
    find_matching_stories CONFIG messages_create fact queue w
    = (Ok matches, w') /\ same_files w w'.
Proof.
  destruct (overlapping_items fact queue) as [|c cs] eqn:E.
  - exists [], w. split; [|apply same_files_refl].
    by apply find_matching_stories_no_candidates.
  - destruct (find_matching_stories_reply CONFIG messages_create fact queue w)
      as (w' & Hrun & Hfiles); [by rewrite E|].
    eauto.
Qed.

(** The batch duplicate check always returns, and touches no file. *)
Lemma is_duplicate_batch_returns (fact : string) (published : list string)
  (w : World) :
  exists dup w',
    is_duplicate_batch CONFIG messages_create fact published w
    = (Ok dup, w') /\ same_files w w'.
Proof.
  destruct (overlapping_facts fact published) as [|c cs] eqn:E.
  - exists false, w. split; [|apply same_files_refl].
    by apply is_duplicate_batch_no_candidates.
  - destruct (is_duplicate_batch_reply CONFIG messages_create fact
                published w) as (w' & Hrun & Hfiles); [by rewrite E|].
    eauto.
Qed.

(** A hash that was shown today settles the question at once. *)
Lemma is_duplicate_fast_path (fact : string) (w : World) :
  get_story_hash fact ∈ hash_lines (shown_txt w) ->
  is_duplicate CONFIG messages_create fact w = (Ok true, w).
Proof.
  intros Hin. unfold is_duplicate, load_shown_hashes. run.
  by rewrite bool_decide_eq_true_2.
Qed.

Lemma is_duplicate_returns (fact : string) (w : World) :
  exists dup w',
    is_duplicate CONFIG messages_create fact w = (Ok dup, w')
    /\ same_files w w'.
Proof.
  unfold is_duplicate, load_shown_hashes, load_published_stories.
  unfold bind, gets, ret. case_bool_decide.
  - exists true, w. split; [done|apply same_files_refl].
  - apply is_duplicate_batch_returns.
Qed.

Lemma process_candidate_duplicate (headline : Headline) (fact : string)
  (confidence : Z) (st : Locals) (w w1 : World) :
  is_duplicate CONFIG messages_create fact w = (Ok true, w1) ->
  process_candidate CONFIG messages_create text_to_speech headline fact
    confidence st w
  = (Ok st, logged (LogDuplicate (Py.take 40 fact)) w1).
Proof.
  intros Hdup. unfold process_candidate, bind at 1. by rewrite Hdup.
Qed.

(** C7: when the duplicate check answers yes, the candidate is dropped:
    the local state, with the queue, comes back as it was, and the world
    is the one the duplicate check left, whose files are those from
    before, plus one log record, so nothing was published and the
    matcher did not run.  A fact whose hash is among the hashes shown
    today gets this answer from the hash alone, with no request sent. *)
Theorem duplicate_is_dropped (headline : Headline) (fact : string)
  (confidence : Z) (st : Locals) (w : World) :
  (forall w1,
     is_duplicate CONFIG messages_create fact w = (Ok true, w1) ->
     process_candidate CONFIG messages_create text_to_speech headline fact
       confidence st w
     = (Ok st, logged (LogDuplicate (Py.take 40 fact)) w1)
     /\ same_files w w1)
  /\ (get_story_hash fact ∈ hash_lines (shown_txt w) ->
      is_duplicate CONFIG messages_create fact w = (Ok true, w)
      /\ process_candidate CONFIG messages_create text_to_speech headline
           fact confidence st w
         = (Ok st, logged (LogDuplicate (Py.take 40 fact)) w)).
Proof.
  split.
  - intros w1 Hdup. split; [by apply process_candidate_duplicate|].
    destruct (is_duplicate_returns fact w) as (dup & w' & Hrun & Hfiles).
    rewrite Hdup in Hrun. by simplify_eq.
  - intros Hin. pose proof (is_duplicate_fast_path fact w Hin) as Hdup.
    split; [done|]. by apply process_candidate_duplicate.
Qed.

(** The loop over the matches does nothing when no match is from an
    independent source. *)
Lemma check_matches_all_related (headline : Headline) (fact : string)
  (matches : list QueueItem) (st : Locals) (w : World) :
  (forall m, m ∈ matches ->
     are_sources_unrelated CONFIG (h_source_id headline) (q_source_id m)
     = false) ->
  check_matches CONFIG text_to_speech headline fact matches st w = (Ok st, w).
Proof.
  induction matches as [|m rest IH]; intros Hrel; [done|].
  simpl. rewrite (Hrel m) by left. apply IH.
  intros m' Hin. apply Hrel. by right.
Qed.

(** C1, amended: when the matcher returns one or more matches and none
    is from a source independent of the source of the new fact, nothing
    is published and the queue stays as it is: the items queued before
    remain, and the new fact is not added.  The new fact is queued when
    the matcher returns no match at all. *)
Theorem related_matches_change_nothing (headline : Headline) (fact : string)
  (confidence : Z) (st : Locals) (w w1 w2 : World)
  (matches : list QueueItem) :
  is_duplicate CONFIG messages_create fact w = (Ok false, w1) ->
  find_matching_stories CONFIG messages_create fact (queue st) w1
  = (Ok matches, w2) ->
  (matches ≠ [] ->
   (forall m, m ∈ matches ->
      are_sources_unrelated CONFIG (h_source_id headline) (q_source_id m)
      = false) ->
   process_candidate CONFIG messages_create text_to_speech headline fact
     confidence st w
   = (Ok st, w2)
   /\ same_files w w2)
  /\ (matches = [] ->
      process_candidate CONFIG messages_create text_to_speech headline fact
        confidence st w
      = (Ok {| queue := queue st ++ [new_queue_item headline fact confidence];
               skipped_count := skipped_count st;
               published_count := published_count st |},
         logged (LogQueued (Py.take 40 fact)) w2)).
Proof.
  intros Hdup Hfind.
  assert (same_files w w2) as Hfiles.
  { destruct (is_duplicate_returns fact w) as (d & w1' & Hd & Hf1).
    destruct (find_matching_stories_returns fact (queue st) w1)
      as (ms & w2' & Hm & Hf2).
    rewrite Hdup in Hd. rewrite Hfind in Hm. simplify_eq.
    by eapply same_files_trans. }
  split.
  - intros Hne Hrel. split; [|done].
    unfold process_candidate, bind at 1. rewrite Hdup.
    unfold bind at 1. rewrite Hfind.
    destruct matches as [|m rest]; [done|].
    by apply check_matches_all_related.
  - intros ->. unfold process_candidate, bind at 1. rewrite Hdup.
    unfold bind at 1. rewrite Hfind. by run.
Qed.

End Candidate.

Lemma duplicate_is_dropped_witness :
  is_duplicate demo_config (always_replies "NO")
    "CITY COUNCIL APPROVES $2M PARK RENOVATION"
    (world_after_park_story (nine_o_clock + 3 * HOUR))
  = (Ok true, world_after_park_story (nine_o_clock + 3 * HOUR))
  /\ process_candidate demo_config (always_replies "NO") speech_works
       park_headline_civic "CITY COUNCIL APPROVES $2M PARK RENOVATION" 90
       (no_locals [mayor_from_daily])
       (world_after_park_story (nine_o_clock + 3 * HOUR))
     = (Ok (no_locals [mayor_from_daily]),
        logged
          (LogDuplicate (Py.take 40 "CITY COUNCIL APPROVES $2M PARK RENOVATION"))
          (world_after_park_story (nine_o_clock + 3 * HOUR))).
Proof.
  apply (proj2 (duplicate_is_dropped demo_config (always_replies "NO")
                  speech_works park_headline_civic
                  "CITY COUNCIL APPROVES $2M PARK RENOVATION" 90
                  (no_locals [mayor_from_daily])
                  (world_after_park_story (nine_o_clock + 3 * HOUR)))).
  apply (bool_decide_unpack _). vm_compute. exact I.
Defined.

(** C1, as stated: a second report of the park vote by the sister outlet
    of the first is matched with the queued item, is not independent of
    it, and is not queued: the queue still holds the first item only. *)
Lemma related_match_is_not_queued :
  fst (is_duplicate demo_config (always_replies "1") park_fact_wire
         (quiet_world (nine_o_clock + HOUR) []))
  = Ok false
  /\ fst (find_matching_stories demo_config (always_replies "1")
            park_fact_wire [park_from_daily]
            (quiet_world (nine_o_clock + HOUR) []))
     = Ok [park_from_daily]
  /\ are_sources_unrelated demo_config (h_source_id park_headline_wire)
       (q_source_id park_from_daily) = false
  /\ fst (process_candidate demo_config (always_replies "1") speech_works
            park_headline_wire park_fact_wire 90
            (no_locals [park_from_daily])
            (quiet_world (nine_o_clock + HOUR) []))
     = Ok (no_locals [park_from_daily])
  /\ new_queue_item park_headline_wire park_fact_wire 90
     ∉ queue (no_locals [park_from_daily]).
Proof.
  repeat split; try (vm_compute; reflexivity).
  intros ?%list_elem_of_singleton. discriminate.
Qed.

Lemma related_matches_change_nothing_witness :
  process_candidate demo_config (always_replies "1") speech_works
    park_headline_wire park_fact_wire 90 (no_locals [park_from_daily])
    (quiet_world (nine_o_clock + HOUR) [])
  = (Ok (no_locals [park_from_daily]),
     snd (find_matching_stories demo_config (always_replies "1")
            park_fact_wire [park_from_daily]
            (quiet_world (nine_o_clock + HOUR) [])))
  /\ same_files (quiet_world (nine_o_clock + HOUR) [])
       (snd (find_matching_stories demo_config (always_replies "1")
               park_fact_wire [park_from_daily]
               (quiet_world (nine_o_clock + HOUR) []))).
Proof.
  apply (proj1 (related_matches_change_nothing demo_config
                  (always_replies "1") speech_works park_headline_wire
                  park_fact_wire 90 (no_locals [park_from_daily])
                  (quiet_world (nine_o_clock + HOUR) [])
                  (quiet_world (nine_o_clock + HOUR) [])
                  (snd (find_matching_stories demo_config (always_replies "1")
                          park_fact_wire [park_from_daily]
                          (quiet_world (nine_o_clock + HOUR) [])))
                  [park_from_daily]
                  ltac:(vm_compute; reflexivity)
                  ltac:(vm_compute; reflexivity))).
  - discriminate.
  - intros m ->%list_elem_of_singleton. vm_compute. reflexivity.
Defined.

(** ** Publication *)

Section Publication.

Variable CONFIG : Config.
Variable messages_create : nat -> Request -> option string.
Variable text_to_speech : string -> bool.

Lemma other_fact_true (matched q : QueueItem) :
  other_fact matched q = true <-> q_fact q ≠ q_fact matched.
Proof.
  unfold other_fact. rewrite negb_true_iff.
  destruct (String.eqb_spec (q_fact q) (q_fact matched)); split; congruence.
Qed.

(** Publishing always returns; it adds one story and one shown hash and
    keeps of the queue the items with another fact text. *)
Lemma publish_verified_run (headline : Headline) (fact : string)
  (matched : QueueItem) (st : Locals) (w : World) :
  exists w',
    publish_verified text_to_speech headline fact matched st w
    = (Ok {| queue := List.filter (other_fact matched) (queue st);
             skipped_count := skipped_count st;
             published_count := S (published_count st) |}, w')
    /\ s_fact <$> stories_json w' = (s_fact <$> stories_json w) ++ [fact]
    /\ shown_txt w' = shown_txt w ++ [get_story_hash fact].
Proof.
  unfold publish_verified, get_next_audio_index, generate_tts,
    write_current_story, append_daily_log, add_shown_hash.
  destruct (text_to_speech fact); run;
    (eexists; split; [reflexivity|]; simpl; by rewrite fmap_app).
Qed.

(** The loop over the matches publishes with the first match from an
    independent source. *)
Lemma check_matches_first_independent (headline : Headline) (fact : string)
  (related : list QueueItem) (m : QueueItem) (rest : list QueueItem)
  (st : Locals) (w : World) :
  (forall r, r ∈ related ->
     are_sources_unrelated CONFIG (h_source_id headline) (q_source_id r)
     = false) ->
  are_sources_unrelated CONFIG (h_source_id headline) (q_source_id m) = true ->
  check_matches CONFIG text_to_speech headline fact (related ++ m :: rest) st w
  = publish_verified text_to_speech headline fact m st w.
Proof.
  intros Hrel Hind. induction related as [|r related IH]; simpl.
  - by rewrite Hind.
  - rewrite (Hrel r) by left. apply IH. intros r' Hin. apply Hrel. by right.
Qed.

(** C9: when a fact is published with a matched queue item, the new
    queue is the old one without the items whose fact text equals that
    of the matched item: every such item goes, whatever its source, and
    the items with another fact text stay, in their order. *)
Theorem publication_removes_by_fact_text (headline : Headline)
  (fact : string) (confidence : Z) (st : Locals) (w w1 w2 : World)
  (related : list QueueItem) (m : QueueItem) (rest : list QueueItem) :
  is_duplicate CONFIG messages_create fact w = (Ok false, w1) ->
  find_matching_stories CONFIG messages_create fact (queue st) w1
  = (Ok (related ++ m :: rest), w2) ->
  (forall r, r ∈ related ->
     are_sources_unrelated CONFIG (h_source_id headline) (q_source_id r)
     = false) ->
  are_sources_unrelated CONFIG (h_source_id headline) (q_source_id m) = true ->
  exists st' w3,
    process_candidate CONFIG messages_create text_to_speech headline fact
      confidence st w
    = (Ok st', w3)
    /\ queue st' = List.filter (other_fact m) (queue st)
    /\ (forall q, q ∈ queue st -> q_fact q = q_fact m -> q ∉ queue st')
    /\ (forall q, q ∈ queue st -> q_fact q ≠ q_fact m -> q ∈ queue st')
    /\ (forall q, q ∈ queue st' -> q ∈ queue st)
    /\ published_count st' = S (published_count st)
    /\ s_fact <$> stories_json w3 = (s_fact <$> stories_json w) ++ [fact].
Proof.
  intros Hdup Hfind Hrel Hind.
  destruct (publish_verified_run headline fact m st w2)
    as (w3 & Hrun & Hstories & _).
  eexists _, w3. split.
  { unfold process_candidate, bind at 1. rewrite Hdup.
    unfold bind at 1. rewrite Hfind.
    destruct (related ++ m :: rest) as [|x xs] eqn:E.
    { by destruct related. }
    rewrite <- E, check_matches_first_independent by done. exact Hrun. }
  simpl. split; [done|]. split; [|split; [|split; [|split]]].
  - intros q _ Heq [_ Hf]%elem_of_filter_bool.
    by apply other_fact_true in Hf.
  - intros q Hin Hne. apply elem_of_filter_bool. split; [done|].
    by apply other_fact_true.
  - by intros q [Hin _]%elem_of_filter_bool.
  - done.
  - rewrite Hstories.
    destruct (is_duplicate_returns CONFIG messages_create fact w)
      as (d & w1' & Hd & Hf1).
    destruct (find_matching_stories_returns CONFIG messages_create fact
                (queue st) w1) as (ms & w2' & Hm & Hf2).
    rewrite Hdup in Hd. rewrite Hfind in Hm. simplify_eq.
    destruct (same_files_trans _ _ _ Hf1 Hf2) as (_&_&_&_&->&_). done.
Qed.

End Publication.

Lemma publication_removes_by_fact_text_witness :
  exists st' w3,
    process_candidate demo_config (always_replies "1") speech_works
      park_headline_civic park_fact_wire 90 (no_locals queue_with_twins)
      (quiet_world (nine_o_clock + 2 * HOUR) [])
    = (Ok st', w3)
    /\ queue st' = [mayor_from_daily]
    /\ s_fact <$> stories_json w3 = [park_fact_wire].
Proof.
  destruct (publication_removes_by_fact_text demo_config
              (always_replies "1") speech_works park_headline_civic
              park_fact_wire 90 (no_locals queue_with_twins)
              (quiet_world (nine_o_clock + 2 * HOUR) [])
              (quiet_world (nine_o_clock + 2 * HOUR) [])
              (snd (find_matching_stories demo_config (always_replies "1")
                      park_fact_wire queue_with_twins
                      (quiet_world (nine_o_clock + 2 * HOUR) [])))
              [] park_from_daily [])
    as (st' & w3 & Hrun & Hqueue & _ & _ & _ & _ & Hstories).
  - vm_compute. reflexivity.
  - vm_compute. reflexivity.
  - intros r Hin. by apply elem_of_nil in Hin.
  - vm_compute. reflexivity.
  - exists st', w3. split; [exact Hrun|]. split.
    + rewrite Hqueue. vm_compute. reflexivity.
    + exact Hstories.
Defined.

(** ** Extraction results without a newsworthiness field *)

Lemma digit_facts (c : ascii) :
  is_digit c ->
  Py.int_blank c = false /\ is_Some (Py.digit_val c)
  /\ c <> "-"%char /\ c <> "+"%char.
Proof.
  unfold is_digit.
  destruct c as [[] [] [] [] [] [] [] []]; vm_compute; intros H;
    try discriminate H; repeat split; eauto; discriminate.
Qed.

Lemma digits_run_digits (cs : list ascii) : Forall is_digit (Py.digits_run cs).
Proof.
  induction cs as [|c cs IH]; simpl; [constructor|].
  destruct (Py.between 48 57 (Py.ord c)) eqn:E; constructor; done.
Qed.

Lemma drop_blanks_digits (ds : list ascii) :
  Forall is_digit ds -> Py.drop_blanks ds = ds.
Proof.
  destruct 1 as [|c ds Hc _]; [done|].
  simpl. by destruct (digit_facts c Hc) as (-> & _).
Qed.

Lemma int_digits_digits (ds : list ascii) (acc : Z) (after_digit : bool) :
  Forall is_digit ds -> ds ≠ [] \/ after_digit = true ->
  is_Some (Py.int_digits acc after_digit ds).
Proof.
  intros Hds. revert acc after_digit.
  induction Hds as [|c ds Hc _ IH]; intros acc after_digit Hne; simpl.
  - destruct Hne as [?| ->]; [done|eauto].
  - destruct (digit_facts c Hc) as (_ & [d ->] & _). apply IH. by right.
Qed.

(** A non-empty run of digits always reads as an integer. *)
Lemma int_of_digits (ds : list ascii) :
  Forall is_digit ds -> ds ≠ [] ->
  is_Some (Py.int (string_of_list_ascii ds)).
Proof.
  intros Hds Hne. unfold Py.int.
  rewrite list_ascii_of_string_of_list_ascii.
  rewrite (drop_blanks_digits ds Hds).
  rewrite (drop_blanks_digits (rev ds)) by by apply Forall_rev.
  rewrite rev_involutive.
  pose proof (int_digits_digits ds 0 false Hds (or_introl Hne)) as Hsome.
  destruct Hds as [|c ds Hc Hds]; [done|].
  destruct (digit_facts c Hc) as (_ & _ & Hminus & Hplus).
  destruct c as [[] [] [] [] [] [] [] []]; try done.
Qed.

Lemma search_Some {A} (m : list ascii -> option A) (cs : list ascii) (a : A) :
  Py.search m cs = Some a -> exists cs', m cs' = Some a.
Proof.
  induction cs as [|c cs IH]; simpl.
  - destruct (m []) eqn:E; [|done]. intros [= ->]. eauto.
  - destruct (m (c :: cs)) eqn:E; [intros [= ->]; eauto|]. exact IH.
Qed.

Lemma search_confidence_digits (text digits : string) :
  Py.search_confidence text = Some digits -> is_Some (Py.int digits).
Proof.
  unfold Py.search_confidence. intros (ds & Hs & ->)%fmap_Some.
  apply search_Some in Hs as (cs' & Hm).
  destruct (Py.expect_key "confidence" cs') as [rest|]; [|done].
  simpl in Hm.
  pose proof (digits_run_digits rest) as Hall.
  destruct (Py.digits_run rest) as [|d ds'] eqn:E; [done|].
  simplify_eq. by apply int_of_digits.
Qed.

Section Newsworthy.

Variable CONFIG : Config.
Variable FACT_EXTRACTION_PROMPT : string.
Variable messages_create : nat -> Request -> option string.
Variable json_loads : string -> option ExtractResult.
Variable text_to_speech : string -> bool.

(** The parse by patterns always returns, never with a newsworthiness
    field. *)
Lemma fallback_parse_returns (text : string) (w : World) :
  exists r, fallback_parse text w = (Ok r, w) /\ r_newsworthy r = None.
Proof.
  unfold fallback_parse.
  destruct (Py.search_fact text) as [group1|]; [|by eexists].
  destruct (Py.search_confidence text) as [digits|] eqn:E; [|by eexists].
  destruct (search_confidence_digits _ _ E) as [n Hn].
  unfold bind, int. rewrite Hn. by eexists.
Qed.

(** C10: the parse by patterns, which takes over when the reply does not
    decode, always returns a result without the newsworthiness field;
    and a headline whose extraction result lacks that field, is not the
    SKIP sentinel and reaches the minimum confidence goes on to the
    duplicate check and the matching, exactly as with the field set to
    true. *)
Theorem missing_newsworthy_counts_as_true (processed_cache : gset string)
  (st : Locals) (headline : Headline) (w : World) :
  (forall text w0,
     exists r, fallback_parse text w0 = (Ok r, w0) /\ r_newsworthy r = None)
  /\ (forall text,
        messages_create (length (requests w))
          {| req_model := claude_model CONFIG;
             req_max_tokens := claude_max_tokens CONFIG;
             req_content := FACT_EXTRACTION_PROMPT +:+ h_text headline |}
        = Some text ->
        decode_reply json_loads text = None ->
        exists r w1,
          extract_fact CONFIG FACT_EXTRACTION_PROMPT messages_create
            json_loads (h_text headline) w = (Ok r, w1)
          /\ r_newsworthy r = None)
  /\ (forall r w1,
        is_headline_processed (h_text headline) processed_cache = false ->
        extract_fact CONFIG FACT_EXTRACTION_PROMPT messages_create json_loads
          (h_text headline)
          (set_processed_txt
             (processed_txt w ++ [get_story_hash (h_text headline)]) w)
        = (Ok r, w1) ->
        r_newsworthy r = None ->
        r_fact r ≠ "SKIP" ->
        min_confidence CONFIG <= r_confidence r ->
        process_headline CONFIG FACT_EXTRACTION_PROMPT messages_create
          json_loads text_to_speech processed_cache st headline w
        = process_candidate CONFIG messages_create text_to_speech headline
            (r_fact r) (r_confidence r) st w1).
Proof.
  split; [|split].
  - intros text w0. apply fallback_parse_returns.
  - intros text Hreply Hdec. unfold extract_fact, try_except, bind, claude.
    rewrite Hreply, Hdec.
    destruct (fallback_parse_returns text
                (set_requests
                   (requests w ++
                    [{| req_model := claude_model CONFIG;
                        req_max_tokens := claude_max_tokens CONFIG;
                        req_content :=
                          FACT_EXTRACTION_PROMPT +:+ h_text headline |}]) w))
      as (r & Hrun & Hnews).
    rewrite Hrun. eauto.
  - intros r w1 Hnew Hextract Hnews Hfact Hconf.
    unfold process_headline. rewrite Hnew.
    unfold bind at 1, add_processed_headline, modify.
    unfold bind at 1. rewrite Hextract.
    destruct (String.eqb_spec (r_fact r) "SKIP") as [|_]; [done|].
    rewrite (proj2 (Z.ltb_ge _ _) Hconf), Hnews. reflexivity.
Qed.

End Newsworthy.

Lemma missing_newsworthy_counts_as_true_witness :
  process_headline demo_config "Extract: " (always_replies broken_reply)
    no_json speech_works ∅ (no_locals []) park_headline_wire
    (quiet_world (nine_o_clock + HOUR) [])
  = process_candidate demo_config (always_replies broken_reply) speech_works
      park_headline_wire park_fact_wire 91 (no_locals [])
      (snd (extract_fact demo_config "Extract: "
              (always_replies broken_reply) no_json
              (h_text park_headline_wire)
              (set_processed_txt
                 [get_story_hash (h_text park_headline_wire)]
                 (quiet_world (nine_o_clock + HOUR) [])))).
Proof.
  apply (proj2 (proj2 (missing_newsworthy_counts_as_true demo_config
                         "Extract: " (always_replies broken_reply) no_json
                         speech_works ∅ (no_locals []) park_headline_wire
                         (quiet_world (nine_o_clock + HOUR) [])))
           {| r_fact := park_fact_wire; r_confidence := 91;
              r_newsworthy := None; r_threshold_met := None |}).
  - vm_compute. reflexivity.
  - vm_compute. reflexivity.
  - reflexivity.
  - discriminate.
  - vm_compute. discriminate.
Defined.

(** The fact of the broken reply ends up in the queue. *)
Example broken_reply_is_queued :
  fst (process_headline demo_config "Extract: " (always_replies broken_reply)
         no_json speech_works ∅ (no_locals []) park_headline_wire
         (quiet_world (nine_o_clock + HOUR) []))
  = Ok (no_locals [new_queue_item park_headline_wire park_fact_wire 91]).
Proof. vm_compute. reflexivity. Qed.

(** ** A whole cycle *)

(** The park item of the morning is in the queue; the report of an
    independent outlet arrives: its fact is extracted from a broken
    reply, matched with the queued item and published, and the queue is
    saved empty. *)
Example cycle_publishes_on_independent_match :
  let w' :=
    snd (process_cycle demo_config "Extract: "
           (scripted [broken_reply; "1"]) no_json speech_works
           [park_headline_civic]
           (quiet_world (nine_o_clock + 2 * HOUR) [park_from_daily])) in
  queue_json w' = Some []
  /\ s_fact <$> stories_json w' = [park_fact_wire]
  /\ shown_txt w' = [get_story_hash park_fact_wire]
  /\ length (requests w') = 2%nat.
Proof. vm_compute. repeat split; reflexivity. Qed.

(** The same report from the sister outlet of the first: nothing is
    published and the queue is saved as it was. *)
Example cycle_with_related_match :
  let w' :=
    snd (process_cycle demo_config "Extract: "
           (scripted [broken_reply; "1"]) no_json speech_works
           [park_headline_wire]
           (quiet_world (nine_o_clock + 2 * HOUR) [park_from_daily])) in
  queue_json w' = Some [park_from_daily]
  /\ stories_json w' = []
  /\ length (requests w') = 2%nat.
Proof. vm_compute. repeat split; reflexivity. Qed.

(** Three hours and five minutes after the first report its item has
    expired, and the independent report is queued afresh. *)
Example cycle_after_expiry :
  let w' :=
    snd (process_cycle demo_config "Extract: "
           (scripted [broken_reply; "1"]) no_json speech_works
           [park_headline_civic]
           (quiet_world (nine_o_clock + 3 * HOUR + 300 * MICROSECONDS)
              [park_from_daily])) in
  queue_json w'
  = Some [new_queue_item park_headline_civic park_fact_wire 91]
  /\ stories_json w' = []
  /\ length (requests w') = 1%nat.
Proof. vm_compute. repeat split; reflexivity. Qed.

(* ================================================================= *)
(** * Further properties of the code *)
(* ================================================================= *)

(** ** The story hash *)

Lemma le_bytes_length (n : nat) (x : Z) : length (Py.le_bytes n x) = n.
Proof. revert x. induction n as [|n IH]; intros x; simpl; [done|by rewrite IH]. Qed.

Lemma le_bytes_range (n : nat) (x : Z) :
  Forall (fun b => 0 <= b < 256) (Py.le_bytes n x).
Proof.
  revert x. induction n as [|n IH]; intros x; simpl; constructor; [|done].
  apply Z.mod_pos_bound. lia.
Qed.

Lemma md5_bytes (msg : list Z) :
  length (Py.md5 msg) = 16%nat /\ Forall (fun b => 0 <= b < 256) (Py.md5 msg).
Proof.
  unfold Py.md5.
  destruct (fold_left Py.md5_block _ _) as [[[a b] c] d].
  rewrite !length_app, !le_bytes_length. split; [done|].
  rewrite !Forall_app. auto using le_bytes_range.
Qed.

Lemma hex_digit_is_hex (n : Z) : 0 <= n < 16 -> is_hex_digit (Py.hex_digit n).
Proof.
  intros Hn. rewrite <- (Z2Nat.id n) by lia.
  assert (Z.to_nat n < 16)%nat as Hk by lia.
  revert Hk. generalize (Z.to_nat n). intros k Hk.
  do 16 (destruct k as [|k]; [vm_compute; reflexivity|]). lia.
Qed.

Lemma hex_chars (bs : list Z) :
  Forall (fun b => 0 <= b < 256) bs ->
  String.length (Py.hex bs) = (2 * length bs)%nat
  /\ all_chars is_hex_digit (Py.hex bs).
Proof.
  unfold all_chars. induction 1 as [|b bs Hb _ [IHl IHc]]; simpl.
  - split; [done|constructor].
  - split; [lia|].
    constructor; [|constructor; [|done]]; apply hex_digit_is_hex.
    + split; [apply Z.div_pos; lia|apply Z.div_lt_upper_bound; lia].
    + apply Z.mod_pos_bound. lia.
Qed.

Lemma take_chars (P : ascii -> Prop) (n : nat) (s : string) :
  all_chars P s -> (n <= String.length s)%nat ->
  String.length (Py.take n s) = n /\ all_chars P (Py.take n s).
Proof.
  unfold all_chars. revert s. induction n as [|n IH]; intros s Hall Hlen.
  - simpl. split; [done|]. destruct s; constructor.
  - destruct s as [|c s]; simpl in *; [lia|].
    apply Forall_cons in Hall as [Hc Hall].
    destruct (IH s Hall ltac:(lia)) as [IHl IHc].
    split; [by rewrite IHl|by constructor].
Qed.

Lemma map_chars_idemp (f : ascii -> ascii) (s : string) :
  (forall c, f (f c) = f c) ->
  Py.map_chars f (Py.map_chars f s) = Py.map_chars f s.
Proof. intros Hf. induction s as [|c s IH]; simpl; [done|]. by rewrite Hf, IH. Qed.

Lemma lower_char_idemp (c : ascii) :
  Py.lower_char (Py.lower_char c) = Py.lower_char c.
Proof. destruct c as [[] [] [] [] [] [] [] []]; vm_compute; reflexivity. Qed.

Lemma lower_idemp (s : string) : Py.lower (Py.lower s) = Py.lower s.
Proof. apply map_chars_idemp, lower_char_idemp. Qed.

Lemma story_hash_chars (text : string) :
  String.length (get_story_hash text) = 12%nat
  /\ all_chars is_hex_digit (get_story_hash text).
Proof.
  unfold get_story_hash, Py.md5_hexdigest.
  destruct (md5_bytes (Py.encode (Py.lower text))) as [Hlen Hrange].
  destruct (hex_chars _ Hrange) as [Hhl Hhc].
  apply take_chars; [done|]. rewrite Hhl, Hlen. lia.
Qed.

(** X1: the story hash of any text has exactly twelve characters, all
    of them lower-case hexadecimal digits, and lower-casing the text
    first does not change it. *)
Theorem get_story_hash_shape (text : string) :
  String.length (get_story_hash text) = 12%nat
  /\ all_chars is_hex_digit (get_story_hash text)
  /\ get_story_hash (Py.lower text) = get_story_hash text.
Proof.
  destruct (story_hash_chars text) as [Hlen Hhex].
  split; [done|]. split; [done|].
  unfold get_story_hash. by rewrite lower_idemp.
Qed.

Lemma hex_digit_not_space (c : ascii) :
  is_hex_digit c -> Py.isspace c = false.
Proof.
  unfold is_hex_digit.
  destruct c as [[] [] [] [] [] [] [] []]; vm_compute; intros H;
    try discriminate H; reflexivity.
Qed.

Lemma lstrip_no_space (cs : list ascii) :
  Forall (fun c => Py.isspace c = false) cs -> Py.lstrip cs = cs.
Proof. destruct 1 as [|c cs Hc _]; simpl; [done|by rewrite Hc]. Qed.

Lemma strip_no_space (s : string) :
  all_chars (fun c => Py.isspace c = false) s -> Py.strip s = s.
Proof.
  unfold all_chars, Py.strip. intros H.
  rewrite (lstrip_no_space _ H).
  rewrite lstrip_no_space by by apply Forall_rev.
  by rewrite rev_involutive, string_of_list_ascii_of_string.
Qed.

(** A story hash is a line that reads back as itself. *)
Lemma story_hash_line (text : string) :
  Py.strip (get_story_hash text) = get_story_hash text
  /\ Py.nonempty (get_story_hash text) = true.
Proof.
  destruct (story_hash_chars text) as (Hlen & Hhex). split.
  - apply strip_no_space. unfold all_chars in *.
    eapply Forall_impl; [exact Hhex|]. apply hex_digit_not_space.
  - by destruct (get_story_hash text).
Qed.

Lemma hash_lines_snoc (lines : list string) (h : string) :
  Py.strip h = h -> Py.nonempty h = true ->
  hash_lines (lines ++ [h]) = hash_lines lines ∪ {[h]}.
Proof.
  intros Hs Hn. unfold hash_lines.
  rewrite fmap_app, List.filter_app, list_to_set_app_L. simpl.
  rewrite Hs, Hn. simpl. by rewrite (right_id_L ∅ (∪)).
Qed.

(** ** Round trips through the files of the day *)

(** X2: once the hash of a headline is added to the file of processed
    headlines, a later load of that file recognises the headline, and
    every headline recognised before is still recognised. *)
Theorem processed_headline_round_trip (text : string) (w : World) :
  exists w' cache,
    add_processed_headline (get_story_hash text) w = (Ok tt, w')
    /\ load_processed_headlines w' = (Ok cache, w')
    /\ is_headline_processed text cache = true
    /\ (forall other,
          is_headline_processed other (hash_lines (processed_txt w)) = true ->
          is_headline_processed other cache = true)
    /\ same_files (set_processed_txt (processed_txt w') w) w'
    /\ requests w' = requests w.
Proof.
  destruct (story_hash_line text) as [Hs Hn].
  eexists _, _. split; [reflexivity|]. split; [reflexivity|].
  simpl. rewrite (hash_lines_snoc _ _ Hs Hn).
  unfold is_headline_processed. split; [|split; [|split]].
  - apply bool_decide_eq_true_2. set_solver.
  - intros other H%bool_decide_eq_true_1.
    apply bool_decide_eq_true_2. set_solver.
  - by repeat split.
  - done.
Qed.

Section AfterPublication.

Variable CONFIG : Config.
Variable messages_create : nat -> Request -> option string.
Variable text_to_speech : string -> bool.

(** X3: after a fact is published, the duplicate check answers yes,
    from the hash alone and without sending a request, for every fact
    with the same lower-cased text. *)
Theorem published_fact_is_duplicate (headline : Headline) (fact : string)
  (matched : QueueItem) (st : Locals) (w : World) :
  exists st' w',
    publish_verified text_to_speech headline fact matched st w = (Ok st', w')
    /\ forall fact',
         Py.lower fact' = Py.lower fact ->
         is_duplicate CONFIG messages_create fact' w' = (Ok true, w').
Proof.
  destruct (publish_verified_run text_to_speech headline fact matched st w)
    as (w' & Hrun & _ & Hshown).
  eexists _, w'. split; [exact Hrun|].
  intros fact' Hlow. apply is_duplicate_fast_path.
  destruct (story_hash_line fact) as [Hs Hn].
  rewrite Hshown, (hash_lines_snoc _ _ Hs Hn).
  unfold get_story_hash. rewrite Hlow. set_solver.
Qed.

End AfterPublication.

(** ** What the prefilter lets through *)

Lemma size_pos_of_nonempty (X : gset string) : X ≠ ∅ -> (0 < size X)%nat.
Proof.
  intros H. destruct (size X) eqn:E; [|lia].
  by apply size_empty_iff, leibniz_equiv in E.
Qed.

Lemma nonempty_of_elem (X : gset string) (x : string) : x ∈ X -> X ≠ ∅.
Proof. intros Hx E. rewrite E in Hx. by apply not_elem_of_empty in Hx. Qed.

Lemma has_word_overlap_shares_word (a b : string) (t : Q) :
  (0 < t)%Q -> has_word_overlap a b t = true ->
  word_set a ∩ word_set b ≠ ∅.
Proof.
  intros Ht. unfold has_word_overlap.
  case_bool_decide as Ha; [done|]. case_bool_decide as Hb; [done|].
  simpl. intros Hle%Qle_bool_iff Hempty. rewrite Hempty in Hle.
  rewrite size_empty in Hle.
  pose proof (size_pos_of_nonempty _ Ha). pose proof (size_pos_of_nonempty _ Hb).
  destruct t as [p q]. unfold Qle, Qlt in *. simpl in *. nia.
Qed.

(** X4: with the default threshold the prefilter lets a pair of facts
    through only if their word sets share a word; and when the smaller
    word set has at most six words, sharing one word is enough. *)
Theorem has_word_overlap_shared_word (a b : string) :
  (has_word_overlap a b DEFAULT_THRESHOLD = true ->
   exists word, word ∈ word_set a /\ word ∈ word_set b)
  /\ ((Nat.min (size (word_set a)) (size (word_set b)) <= 6)%nat ->
      (exists word, word ∈ word_set a /\ word ∈ word_set b) ->
      has_word_overlap a b DEFAULT_THRESHOLD = true).
Proof.
  split.
  - intros H. apply has_word_overlap_shares_word in H; [|done].
    apply set_choose_L in H as [word Hw]. exists word.
    by apply elem_of_intersection in Hw.
  - intros Hmin (word & Ha & Hb). unfold has_word_overlap.
    rewrite !bool_decide_eq_false_2 by by eapply nonempty_of_elem.
    simpl. apply Qle_bool_iff.
    assert (0 < size (word_set a ∩ word_set b))%nat as Hpos.
    { apply size_pos_of_nonempty, (nonempty_of_elem _ word).
      by apply elem_of_intersection. }
    unfold DEFAULT_THRESHOLD, Qle. simpl. lia.
Qed.

Lemma has_word_overlap_shared_word_witness :
  has_word_overlap "Mayor resigns after audit" "Audit" DEFAULT_THRESHOLD = true
  /\ exists word,
       word ∈ word_set "City council approves $2M park renovation"
       /\ word ∈ word_set "Council approves park funding".
Proof.
  split.
  - apply (proj2 (has_word_overlap_shared_word
                    "Mayor resigns after audit" "Audit")).
    + vm_compute. lia.
    + exists "audit". split; apply (bool_decide_unpack _); vm_compute; exact I.
  - apply (proj1 (has_word_overlap_shared_word
                    "City council approves $2M park renovation"
                    "Council approves park funding")).
    vm_compute. reflexivity.
Defined.










(** ** Edge cases of the registry *)

Section RegistryEdges.

Variable CONFIG : Config.
Variable text_to_speech : string -> bool.

Lemma are_sources_unrelated_zero_threshold (a b : string) :
  max_shared_top_holders CONFIG <= 0 ->
  are_sources_unrelated CONFIG a b = false.
Proof.
  intros Hmax. unfold are_sources_unrelated.
  destruct (sources_by_id (sources CONFIG) !! a) as [s1|]; [|done].
  destruct (sources_by_id (sources CONFIG) !! b) as [s2|]; [|done].
  case_bool_decide; [done|].
  destruct (Z.leb_spec (max_shared_top_holders CONFIG)
              (Z.of_nat (size (holder_names s1 ∩ holder_names s2))));
    [done|lia].
Qed.

(** X6: with a threshold of shared holders of zero or less, no two
    sources count as unrelated, so the loop over the matches never
    publishes: it returns the local state and the world as they were. *)
Theorem zero_threshold_blocks_publication (headline : Headline)
  (fact : string) (matches : list QueueItem) (st : Locals) (w : World)
  (a b : string) :
  max_shared_top_holders CONFIG <= 0 ->
  are_sources_unrelated CONFIG a b = false
  /\ check_matches CONFIG text_to_speech headline fact matches st w
     = (Ok st, w).
Proof.
  intros Hmax. split; [by apply are_sources_unrelated_zero_threshold|].
  apply check_matches_all_related. intros m _.
  by apply are_sources_unrelated_zero_threshold.
Qed.

End RegistryEdges.

(** The last source of a list with a given id is the one in the
    dictionary. *)
Lemma sources_by_id_last (before after : list SourceRecord)
  (s : SourceRecord) :
  src_id s ∉ src_id <$> after ->
  sources_by_id (before ++ s :: after) !! src_id s = Some s.
Proof.
  induction after as [|s' after IH] using rev_ind; intros Hnot.
  - by rewrite sources_by_id_snoc, lookup_insert_eq.
  - rewrite fmap_app, not_elem_of_app in Hnot. destruct Hnot as [H1 H2].
    simpl in H2. apply not_elem_of_cons in H2 as [H2 _].
    replace (before ++ s :: after ++ [s'])
      with ((before ++ s :: after) ++ [s']) by by rewrite <- app_assoc.
    rewrite sources_by_id_snoc, lookup_insert_ne by done. by apply IH.
Qed.

(** X7: when several configured sources have the same id, the last of
    them is the one the independence test uses: two ids are judged by
    the owners and holders of the last entry of each. *)
Theorem last_source_with_id_wins (cfg : Config)
  (before1 after1 before2 after2 : list SourceRecord)
  (s1 s2 : SourceRecord) :
  sources cfg = before1 ++ s1 :: after1 ->
  sources cfg = before2 ++ s2 :: after2 ->
  src_id s1 ∉ src_id <$> after1 ->
  src_id s2 ∉ src_id <$> after2 ->
  are_sources_unrelated cfg (src_id s1) (src_id s2)
  = negb (bool_decide (src_owner s1 = src_owner s2))
    && (Z.of_nat (size (holder_names s1 ∩ holder_names s2))
          <? max_shared_top_holders cfg).
Proof.
  intros E1 E2 H1 H2. unfold are_sources_unrelated.
  rewrite E1 at 1. rewrite (sources_by_id_last _ _ _ H1).
  rewrite E2. rewrite (sources_by_id_last _ _ _ H2).
  case_bool_decide; [done|]. simpl.
  rewrite Z.ltb_antisym. by destruct (_ <=? _).
Qed.

Lemma last_source_with_id_wins_witness :
  are_sources_unrelated relisted_config "acme-daily" "acme-wire" = true.
Proof.
  etrans.
  { apply (last_source_with_id_wins relisted_config
             [acme_daily; acme_wire] [] [acme_daily] [acme_daily_sold]
             acme_daily_sold acme_wire eq_refl eq_refl).
    - apply not_elem_of_nil.
    - intros H. apply list_elem_of_singleton in H. discriminate. }
  vm_compute. reflexivity.
Defined.

Lemma zero_threshold_blocks_publication_witness :
  are_sources_unrelated closed_config "acme-daily" "civic" = false
  /\ check_matches closed_config speech_works park_headline_civic
       park_fact_wire [park_from_daily] (no_locals [park_from_daily])
       (quiet_world nine_o_clock [])
     = (Ok (no_locals [park_from_daily]), quiet_world nine_o_clock []).
Proof.
  apply (zero_threshold_blocks_publication closed_config speech_works).
  vm_compute. discriminate.
Defined.

(** ** More on queue expiry *)

Lemma set_journal_same (w : World) : set_journal (journal w) w = w.
Proof. by destruct w. Qed.

Lemma expired_records_cons (cutoff : Z) (item : QueueItem)
  (rest : list QueueItem) :
  expired_records cutoff (item :: rest)
  = if cutoff <? q_timestamp item then expired_records cutoff rest
    else LogExpired (Py.take 50 (q_fact item)) :: expired_records cutoff rest.
Proof.
  unfold expired_records. simpl. unfold fresh at 1.
  by destruct (cutoff <? q_timestamp item).
Qed.

Lemma clean_loop_journal (cutoff : Z) (queue cleaned : list QueueItem)
  (w : World) :
  clean_loop cutoff queue cleaned w
  = (Ok (cleaned ++ List.filter (fresh cutoff) queue),
     set_journal (journal w ++ expired_records cutoff queue) w).
Proof.
  revert cleaned w. induction queue as [|item rest IH]; intros cleaned w.
  - simpl. unfold ret, expired_records. simpl.
    rewrite !app_nil_r. by rewrite set_journal_same.
  - rewrite expired_records_cons. simpl. unfold fresh at 1.
    destruct (cutoff <? q_timestamp item).
    + rewrite IH. by rewrite <- app_assoc.
    + unfold bind, log, modify. rewrite IH. simpl.
      by rewrite <- app_assoc.
Qed.

Lemma filter_bool_idemp {A} (f : A -> bool) (l : list A) :
  List.filter f (List.filter f l) = List.filter f l.
Proof.
  induction l as [|x l IH]; simpl; [done|].
  destruct (f x) eqn:E; simpl; [rewrite E|]; by rewrite ?IH.
Qed.

Lemma filter_bool_none {A} (f : A -> bool) (l : list A) :
  List.filter (fun x => negb (f x)) (List.filter f l) = [].
Proof.
  induction l as [|x l IH]; simpl; [done|].
  destruct (f x) eqn:E; simpl; [rewrite E|]; by rewrite ?IH.
Qed.

Lemma filter_bool_split_length {A} (f : A -> bool) (l : list A) :
  (length (List.filter f l) + length (List.filter (fun x => negb (f x)) l)
   = length l)%nat.
Proof.
  induction l as [|x l IH]; simpl; [done|].
  destruct (f x); simpl; lia.
Qed.

(** X8: cleaning the queue writes one log record per removed item, in
    queue order, and changes nothing else in the world; kept and removed
    items add up to the queue; the kept items are in their old order;
    and cleaning the result again at the same time removes nothing and
    logs nothing. *)
Theorem clean_expired_queue_log (cfg : Config) (queue : list QueueItem)
  (w : World) :
  exists cleaned,
    clean_expired_queue cfg queue w
    = (Ok cleaned,
       set_journal
         (journal w
          ++ expired_records (clock w - timeout_microseconds cfg) queue) w)
    /\ (length cleaned
        + length (expired_records (clock w - timeout_microseconds cfg) queue)
        = length queue)%nat
    /\ sublist cleaned queue
    /\ clean_expired_queue cfg cleaned
         (set_journal
            (journal w
             ++ expired_records (clock w - timeout_microseconds cfg) queue) w)
       = (Ok cleaned,
          set_journal
            (journal w
             ++ expired_records (clock w - timeout_microseconds cfg) queue) w).
Proof.
  exists (List.filter (fresh (clock w - timeout_microseconds cfg)) queue).
  unfold clean_expired_queue, bind, gets, timeout_microseconds.
  rewrite !clean_loop_journal. simpl.
  split; [done|]. split; [|split].
  - unfold expired_records. rewrite length_fmap.
    apply filter_bool_split_length.
  - clear. induction queue as [|x l IH]; simpl; [constructor|].
    destruct (fresh _ x); by constructor.
  - rewrite filter_bool_idemp. unfold expired_records at 2.
    rewrite filter_bool_none. simpl. by rewrite app_nil_r.
Qed.

(** ** What the matcher and the duplicate check cost and return *)

Section Cost.

Variable CONFIG : Config.
Variable messages_create : nat -> Request -> option string.

Lemma reply_matches_shortlisted (candidates : list QueueItem)
  (reply : option string) (m : QueueItem) :
  m ∈ reply_matches candidates reply -> m ∈ candidates.
Proof.
  unfold reply_matches. destruct reply as [response|]; [|by intros ?%elem_of_nil].
  destruct (_ || _); [by intros ?%elem_of_nil|].
  intros (piece & n & _ & _ & _ & Hat)%elem_of_selected_by.
  by eapply list_elem_of_lookup_2.
Qed.

Lemma find_matching_stories_requests (fact : string) (queue : list QueueItem)
  (w : World) :
  overlapping_items fact queue ≠ [] ->
  exists w',
    find_matching_stories CONFIG messages_create fact queue w
    = (Ok (reply_matches (overlapping_items fact queue)
             (messages_create (length (requests w))
                (matching_request CONFIG fact (overlapping_items fact queue)))),
       w')
    /\ requests w'
       = requests w
         ++ [matching_request CONFIG fact (overlapping_items fact queue)].
Proof.
  intros Hne. unfold find_matching_stories.
  destruct queue as [|q0 queue']; [done|].
  destruct (overlapping_items fact (q0 :: queue')) as [|c cs] eqn:E; [done|].
  run. unfold claude, matching_request, reply_matches. simpl.
  destruct (messages_create _ _) as [response|]; simpl.
  - rewrite nonempty_eqb.
    destruct (_ || _).
    + eexists. split; reflexivity.
    + rewrite parse_numbers_selected. simpl.
      eexists. split; reflexivity.
  - eexists. split; reflexivity.
Qed.

Lemma find_matching_stories_full (fact : string) (queue : list QueueItem)
  (w : World) :
  exists matches w',
    find_matching_stories CONFIG messages_create fact queue w
    = (Ok matches, w')
    /\ (forall m, m ∈ matches ->
          m ∈ queue
          /\ has_word_overlap fact (q_fact m) DEFAULT_THRESHOLD = true)
    /\ same_files w w'
    /\ requests w'
       = requests w
         ++ match overlapping_items fact queue with
            | [] => []
            | candidates => [matching_request CONFIG fact candidates]
            end.
Proof.
  destruct (overlapping_items fact queue) as [|c cs] eqn:E.
  - exists [], w. split; [by apply find_matching_stories_no_candidates|].
    split; [by intros m ?%elem_of_nil|].
    split; [apply same_files_refl|by rewrite app_nil_r].
  - destruct (find_matching_stories_requests fact queue w)
      as (w' & Hrun & Hreq); [by rewrite E|].
    destruct (find_matching_stories_reply CONFIG messages_create fact queue w)
      as (w2 & Hrun2 & Hfiles); [by rewrite E|].
    rewrite Hrun in Hrun2. simplify_eq.
    eexists _, w2. split; [exact Hrun|].
    split; [|split; [done|by rewrite Hreq, E]].
    intros m Hm%reply_matches_shortlisted.
    by apply elem_of_filter_bool in Hm.
Qed.

(** X9: whatever the language model replies, every match the matcher
    returns is an item of the queue that passed the prefilter against
    the new fact; and a call sends no request when the shortlist is
    empty and exactly one, with the shortlist numbered in its prompt,
    when it is not. *)
Theorem matches_come_from_the_shortlist (fact : string)
  (queue : list QueueItem) (w : World) :
  exists matches w',
    find_matching_stories CONFIG messages_create fact queue w
    = (Ok matches, w')
    /\ (forall m, m ∈ matches ->
          m ∈ queue
          /\ has_word_overlap fact (q_fact m) DEFAULT_THRESHOLD = true)
    /\ requests w'
       = requests w
         ++ match overlapping_items fact queue with
            | [] => []
            | candidates => [matching_request CONFIG fact candidates]
            end.
Proof.
  destruct (find_matching_stories_full fact queue w)
    as (matches & w' & Hrun & Hin & _ & Hreq).
  by exists matches, w'.
Qed.

End Cost.

Example one_number_twice :
  fst (find_matching_stories demo_config (always_replies "1,1") park_fact
         [park_from_daily] (quiet_world nine_o_clock []))
  = Ok [park_from_daily; park_from_daily].
Proof. vm_compute. reflexivity. Qed.


(** ** What a cycle costs and counts *)

Ltac solve_advance :=
  unfold advance; simpl; rewrite ?length_app; simpl;
  repeat split;
  try reflexivity; try (by apply prefix_app_r); try lia.

Lemma advance_refl (w : World) : advance 0 0 w w.
Proof. solve_advance. Qed.

Lemma advance_trans (r1 p1 r2 p2 r p : nat) (w w1 w2 : World) :
  advance r1 p1 w w1 -> advance r2 p2 w1 w2 ->
  (r1 + r2 <= r)%nat -> p = (p1 + p2)%nat ->
  advance r p w w2.
Proof.
  unfold advance.
  intros (?&?&?&?&?&?&?&?&?&?) (?&?&?&?&?&?&?&?&?&?) Hr ->.
  repeat split; try congruence; try (by etrans); lia.
Qed.

Lemma advance_weaken (r r' p : nat) (w w' : World) :
  advance r p w w' -> (r <= r')%nat -> advance r' p w w'.
Proof.
  intros H Hr.
  eapply (advance_trans r p 0 0); [exact H|apply advance_refl|lia|lia].
Qed.

Lemma same_files_advance (w w' : World) (sent : list Request) :
  same_files w w' -> requests w' = requests w ++ sent ->
  advance (length sent) 0 w w'.
Proof.
  unfold same_files, advance. intros (?&?&?&Hs&Ht&Hp&?) Hreq.
  rewrite Hreq, Hs, Ht, Hp, length_app.
  repeat split; try done; try (by apply prefix_app_r); lia.
Qed.

Lemma filter_bool_shrinks {A} (f : A -> bool) (l : list A) (x : A) :
  x ∈ l -> f x = false -> (length (List.filter f l) < length l)%nat.
Proof.
  intros Hin Hf. induction l as [|y l IH]; [by apply elem_of_nil in Hin|].
  simpl. pose proof (filter_bool_split_length f l) as Hlen.
  apply elem_of_cons in Hin as [<-|Hin].
  - rewrite Hf. lia.
  - specialize (IH Hin). destruct (f y); simpl; lia.
Qed.

Section CycleCost.

Variable CONFIG : Config.
Variable FACT_EXTRACTION_PROMPT : string.
Variable messages_create : nat -> Request -> option string.
Variable json_loads : string -> option ExtractResult.
Variable text_to_speech : string -> bool.

Lemma find_matching_stories_advance (fact : string) (queue : list QueueItem)
  (w : World) :
  exists matches w',
    find_matching_stories CONFIG messages_create fact queue w
    = (Ok matches, w')
    /\ advance 1 0 w w'
    /\ (forall m, m ∈ matches -> m ∈ queue).
Proof.
  destruct (find_matching_stories_full CONFIG messages_create fact queue w)
    as (matches & w' & Hrun & Hin & Hfiles & Hreq).
  exists matches, w'. split; [done|]. split; [|by intros m [? _]%Hin].
  eapply advance_weaken; [by eapply same_files_advance|].
  destruct (overlapping_items fact queue); simpl; lia.
Qed.

Lemma is_duplicate_batch_advance (fact : string) (published : list string)
  (w : World) :
  exists dup w',
    is_duplicate_batch CONFIG messages_create fact published w = (Ok dup, w')
    /\ advance 1 0 w w'.
Proof.
  destruct (overlapping_facts fact published) as [|c cs] eqn:E.
  - exists false, w. split; [by apply is_duplicate_batch_no_candidates|].
    eapply advance_weaken; [apply advance_refl|lia].
  - unfold is_duplicate_batch. destruct published as [|p0 published']; [done|].
    rewrite E. run. unfold claude. simpl.
    destruct (messages_create _ _); simpl;
      [destruct (String.eqb _ _); simpl|];
      (eexists _, _; split; [reflexivity|solve_advance]).
Qed.

Lemma is_duplicate_advance (fact : string) (w : World) :
  exists dup w',
    is_duplicate CONFIG messages_create fact w = (Ok dup, w')
    /\ advance 1 0 w w'.
Proof.
  unfold is_duplicate, load_shown_hashes, load_published_stories.
  unfold bind, gets, ret. case_bool_decide.
  - exists true, w. split; [done|].
    eapply advance_weaken; [apply advance_refl|lia].
  - apply is_duplicate_batch_advance.
Qed.


Lemma publish_verified_advance (headline : Headline) (fact : string)
  (matched : QueueItem) (st : Locals) (w : World) :
  exists w',
    publish_verified text_to_speech headline fact matched st w
    = (Ok {| queue := List.filter (other_fact matched) (queue st);
             skipped_count := skipped_count st;
             published_count := S (published_count st) |}, w')
    /\ advance 0 1 w w'.
Proof.
  unfold publish_verified, get_next_audio_index, generate_tts,
    write_current_story, append_daily_log, add_shown_hash.
  destruct (text_to_speech fact); run;
    (eexists; split; [reflexivity|solve_advance]).
Qed.

(** The loop over the matches either changes nothing or publishes with
    one of the matches. *)
Lemma check_matches_cases (headline : Headline) (fact : string)
  (matches : list QueueItem) (st : Locals) (w : World) :
  check_matches CONFIG text_to_speech headline fact matches st w = (Ok st, w)
  \/ exists m,
       m ∈ matches
       /\ are_sources_unrelated CONFIG (h_source_id headline) (q_source_id m)
          = true
       /\ check_matches CONFIG text_to_speech headline fact matches st w
          = publish_verified text_to_speech headline fact m st w.
Proof.
  induction matches as [|m rest IH]; simpl; [by left|].
  destruct (are_sources_unrelated _ _ _) eqn:E.
  - right. exists m. split; [by left|done].
  - destruct IH as [IH|(m' & Hin & Hind & IH)]; [by left|].
    right. exists m'. split; [by right|done].
Qed.

(** One candidate: it always returns; it sends at most two requests;
    the count of published stories goes up by at most one, and by as
    much as stories and shown hashes were added; the queue gains at most
    one item, and loses at least one when a story is published. *)
Lemma process_candidate_effect (headline : Headline) (fact : string)
  (confidence : Z) (st : Locals) (w : World) :
  exists st' w',
    process_candidate CONFIG messages_create text_to_speech headline fact
      confidence st w = (Ok st', w')
    /\ advance 2 (published_count st' - published_count st) w w'
    /\ (published_count st <= published_count st' <= S (published_count st))%nat
    /\ skipped_count st' = skipped_count st
    /\ (length (queue st') <= S (length (queue st)))%nat
    /\ (published_count st < published_count st' ->
        length (queue st') < length (queue st))%nat.
Proof.
  unfold process_candidate, bind at 1.
  destruct (is_duplicate_advance fact w) as (dup & w1 & Hdup & Hadv1).
  rewrite Hdup. destruct dup.
  { run. eexists _, _. split; [reflexivity|].
    rewrite Nat.sub_diag. split; [|repeat split; lia].
    eapply (advance_trans 1 0 0 0); [exact Hadv1|solve_advance|lia|lia]. }
  unfold bind at 1.
  destruct (find_matching_stories_advance fact (queue st) w1)
    as (matches & w2 & Hfind & Hadv2 & Hin).
  rewrite Hfind.
  pose proof (advance_trans 1 0 1 0 2 0 w w1 w2 Hadv1 Hadv2
                ltac:(lia) ltac:(lia)) as Hadv.
  destruct matches as [|m0 rest].
  { run. eexists _, _. split; [reflexivity|]. simpl.
    rewrite Nat.sub_diag, length_app. simpl.
    split; [|repeat split; lia].
    eapply (advance_trans 2 0 0 0); [exact Hadv|solve_advance|lia|lia]. }
  destruct (check_matches_cases headline fact (m0 :: rest) st w2)
    as [Hsame|(m & Hm & _ & Hpub)].
  - rewrite Hsame. eexists _, _. split; [reflexivity|].
    rewrite Nat.sub_diag. split; [done|]. repeat split; lia.
  - rewrite Hpub.
    destruct (publish_verified_advance headline fact m st w2)
      as (w3 & Hrun & Hadv3).
    rewrite Hrun. eexists _, _. split; [reflexivity|]. simpl.
    replace (S (published_count st) - published_count st)%nat with 1%nat
      by lia.
    assert (length (List.filter (other_fact m) (queue st))
            < length (queue st))%nat as Hshrink.
    { apply (filter_bool_shrinks _ _ m); [by apply Hin|].
      unfold other_fact. by rewrite String.eqb_refl. }
    split; [|repeat split; lia].
    eapply (advance_trans 2 0 0 1); [exact Hadv|exact Hadv3|lia|lia].
Qed.



End CycleCost.


Section Cycle.

Variable CONFIG : Config.
Variable FACT_EXTRACTION_PROMPT : string.
Variable messages_create : nat -> Request -> option string.
Variable json_loads : string -> option ExtractResult.
Variable text_to_speech : string -> bool.

(** X10: one candidate fact always comes back with a local state.  It
    costs at most two requests; the count of published stories goes up
    by at most one, and by exactly the number of stories and of shown
    hashes added; the queue gains at most one item, and it loses at
    least one item whenever a story is published. *)
Theorem candidate_accounting (headline : Headline) (fact : string)
  (confidence : Z) (st : Locals) (w : World) :
  exists st' w',
    process_candidate CONFIG messages_create text_to_speech headline fact
      confidence st w = (Ok st', w')
    /\ advance 2 (published_count st' - published_count st) w w'
    /\ (published_count st <= published_count st' <= S (published_count st))%nat
    /\ skipped_count st' = skipped_count st
    /\ (length (queue st') <= S (length (queue st)))%nat
    /\ (published_count st < published_count st' ->
        length (queue st') < length (queue st))%nat.
Proof. apply process_candidate_effect. Qed.




End Cycle.



(** ** Extraction and its gates *)

Lemma until_quote_no_quote (cs run : list ascii) :
  Py.until_quote cs = Some run -> Forall not_dquote run.
Proof.
  revert run. induction cs as [|c cs IH]; intros run; simpl; [done|].
  destruct (Ascii.eqb_spec c Py.dquote) as [|Hne]; [by intros [= <-]|].
  intros (run' & Hrun & ->)%fmap_Some. constructor; [done|by apply IH].
Qed.

Lemma search_fact_no_quote (text group1 : string) :
  Py.search_fact text = Some group1 -> all_chars not_dquote group1.
Proof.
  unfold Py.search_fact, all_chars. intros (run & Hs & ->)%fmap_Some.
  rewrite list_ascii_of_string_of_list_ascii.
  apply search_Some in Hs as (cs' & Hm).
  apply bind_Some in Hm as (rest & _ & Hm).
  apply bind_Some in Hm as (body & _ & Hm).
  by eapply until_quote_no_quote.
Qed.

Lemma unescape_quotes_no_quote (s : string) :
  all_chars not_dquote s -> Py.unescape_quotes s = s.
Proof.
  unfold all_chars. induction s as [|c s IH]; [done|].
  cbn [list_ascii_of_string Py.unescape_quotes].
  intros [Hc Hs]%Forall_cons. rewrite (IH Hs).
  assert (Py.starts_with Py.dquote s = false) as ->.
  { destruct s as [|d s']; [done|].
    cbn [list_ascii_of_string] in Hs. apply Forall_cons in Hs as [Hd _].
    cbn [Py.starts_with]. apply Ascii.eqb_neq. by intros <-. }
  by rewrite andb_false_r.
Qed.

Section Extraction.

Variable CONFIG : Config.
Variable FACT_EXTRACTION_PROMPT : string.
Variable messages_create : nat -> Request -> option string.
Variable json_loads : string -> option ExtractResult.
Variable text_to_speech : string -> bool.

(** X13: the fact that the parse by patterns returns never holds a
    double quote: it is the text after the opening quote up to the next
    double quote, escaped or not, so the replacement of escaped quotes
    changes nothing.  Without a confidence field the confidence is 85,
    and without a fact field the result is the SKIP sentinel with
    confidence 0. *)
Theorem fallback_parse_cases (text : string) (w : World) :
  (forall group1,
     Py.search_fact text = Some group1 ->
     all_chars not_dquote group1
     /\ Py.unescape_quotes group1 = group1
     /\ (Py.search_confidence text = None ->
         fallback_parse text w
         = (Ok {| r_fact := group1; r_confidence := 85;
                  r_newsworthy := None; r_threshold_met := None |}, w))
     /\ (forall digits n,
           Py.search_confidence text = Some digits ->
           Py.int digits = Some n ->
           fallback_parse text w
           = (Ok {| r_fact := group1; r_confidence := n;
                    r_newsworthy := None; r_threshold_met := None |}, w)))
  /\ (Py.search_fact text = None ->
      fallback_parse text w = (Ok SKIP_result, w)).
Proof.
  split.
  - intros group1 Hfact.
    pose proof (search_fact_no_quote _ _ Hfact) as Hno.
    pose proof (unescape_quotes_no_quote _ Hno) as Hun.
    split; [done|]. split; [done|]. unfold fallback_parse.
    rewrite Hfact, Hun. split.
    + by intros ->.
    + intros digits n -> Hn. unfold bind, int. by rewrite Hn.
  - intros Hnone. unfold fallback_parse. by rewrite Hnone.
Qed.

Lemma extract_fact_run (headline : string) (w : World) :
  exists r w',
    extract_fact CONFIG FACT_EXTRACTION_PROMPT messages_create json_loads
      headline w = (Ok r, w')
    /\ requests w'
       = requests w
         ++ [extraction_request CONFIG FACT_EXTRACTION_PROMPT headline]
    /\ same_files w w'
    /\ (messages_create (length (requests w))
          (extraction_request CONFIG FACT_EXTRACTION_PROMPT headline) = None ->
        r = SKIP_result).
Proof.
  unfold extract_fact, try_except, bind at 1, claude, extraction_request.
  destruct (messages_create _ _) as [text|]; simpl.
  - destruct (decode_reply json_loads text) as [result|].
    + eexists _, _. split; [reflexivity|]. by repeat split.
    + match goal with |- context [fallback_parse text ?w0] =>
        destruct (fallback_parse_returns text w0) as (r & Hrun & _)
      end.
      rewrite Hrun. eexists _, _. split; [reflexivity|]. by repeat split.
  - run. eexists _, _. split; [reflexivity|]. by repeat split.
Qed.

(** X14: extraction always returns a result, after exactly one request
    that carries the prompt followed by the headline, and touches no
    file; when the call fails the result is the SKIP sentinel with
    confidence 0. *)
Theorem extract_fact_returns (headline : string) (w : World) :
  exists r w',
    extract_fact CONFIG FACT_EXTRACTION_PROMPT messages_create json_loads
      headline w = (Ok r, w')
    /\ requests w'
       = requests w
         ++ [extraction_request CONFIG FACT_EXTRACTION_PROMPT headline]
    /\ same_files w w'
    /\ (messages_create (length (requests w))
          (extraction_request CONFIG FACT_EXTRACTION_PROMPT headline) = None ->
        r = SKIP_result).
Proof. apply extract_fact_run. Qed.

(** X15: a headline that is not in the cache and whose extraction
    result is the SKIP sentinel, or has a confidence below the minimum,
    or is marked not newsworthy, goes no further: the local state, with
    the queue, is unchanged, no request follows the extraction request,
    and no file changes after the extraction. *)
Theorem gated_headline_goes_no_further (processed_cache : gset string)
  (st : Locals) (headline : Headline) (w w1 : World) (r : ExtractResult) :
  is_headline_processed (h_text headline) processed_cache = false ->
  extract_fact CONFIG FACT_EXTRACTION_PROMPT messages_create json_loads
    (h_text headline)
    (set_processed_txt
       (processed_txt w ++ [get_story_hash (h_text headline)]) w)
  = (Ok r, w1) ->
  r_fact r = "SKIP" \/ r_confidence r < min_confidence CONFIG
  \/ r_newsworthy r = Some false ->
  exists w',
    process_headline CONFIG FACT_EXTRACTION_PROMPT messages_create json_loads
      text_to_speech processed_cache st headline w = (Ok st, w')
    /\ requests w' = requests w1
    /\ same_files w1 w'.
Proof.
  intros Hnew Hext Hgate. unfold process_headline. rewrite Hnew.
  unfold bind at 1, add_processed_headline, modify. unfold bind at 1.
  rewrite Hext.
  destruct (String.eqb_spec (r_fact r) "SKIP") as [|Hfact].
  { exists w1. by repeat split. }
  destruct (Z.ltb_spec (r_confidence r) (min_confidence CONFIG)) as [|Hconf].
  { run. eexists. split; [reflexivity|]. by repeat split. }
  destruct Hgate as [?|[?|Hnews]]; [done|lia|].
  rewrite Hnews. run. eexists. split; [reflexivity|]. by repeat split.
Qed.


End Extraction.

Lemma fallback_parse_cases_witness :
  Py.search_fact escaped_reply = Some "Mayor says \"
  /\ fallback_parse escaped_reply (quiet_world nine_o_clock [])
     = (Ok {| r_fact := "Mayor says \"; r_confidence := 85;
              r_newsworthy := None; r_threshold_met := None |},
        quiet_world nine_o_clock []).
Proof.
  assert (Py.search_fact escaped_reply = Some "Mayor says \") as Hfact
    by (vm_compute; reflexivity).
  split; [exact Hfact|].
  destruct (proj1 (fallback_parse_cases escaped_reply
                     (quiet_world nine_o_clock [])) _ Hfact)
    as (_ & _ & Hdefault & _).
  apply Hdefault. vm_compute. reflexivity.
Defined.

Lemma gated_headline_goes_no_further_witness :
  exists w',
    process_headline demo_config "Extract: " (always_replies weak_reply)
      no_json speech_works ∅ (no_locals [park_from_daily]) park_headline_wire
      (quiet_world nine_o_clock [])
    = (Ok (no_locals [park_from_daily]), w')
    /\ length (requests w') = 1%nat.
Proof.
  destruct (gated_headline_goes_no_further demo_config "Extract: "
              (always_replies weak_reply) no_json speech_works ∅
              (no_locals [park_from_daily]) park_headline_wire
              (quiet_world nine_o_clock [])
              (snd (extract_fact demo_config "Extract: "
                      (always_replies weak_reply) no_json
                      (h_text park_headline_wire)
                      (set_processed_txt
                         [get_story_hash (h_text park_headline_wire)]
                         (quiet_world nine_o_clock []))))
              {| r_fact := park_fact_wire; r_confidence := 40;
                 r_newsworthy := None; r_threshold_met := None |})
    as (w' & Hrun & Hreq & _).
  - vm_compute. reflexivity.
  - vm_compute. reflexivity.
  - right. left. vm_compute. reflexivity.
  - exists w'. split; [exact Hrun|]. rewrite Hreq. vm_compute. reflexivity.
Defined.


(** ** Scraping *)

Section ScrapingFacts.

Variable fetch_feed : string -> option (list (option string)).
Variable fetch_page : string -> string -> option (list string).
Variable now : Z.

Lemma rss_loop_new (source : SourceEntry) (items : list (option string))
  (headlines : list Headline) :
  exists new,
    rss_loop now source items headlines = headlines ++ new
    /\ (length new <= length items)%nat
    /\ Forall (scraped_from now source) new.
Proof.
  revert headlines. induction items as [|title rest IH]; intros headlines.
  - exists []. simpl. by rewrite app_nil_r.
  - simpl. destruct title as [title_text|].
    + destruct (Py.nonempty title_text).
      * destruct (Nat.ltb_spec 20 (Py.len (Py.strip title_text))) as [Hlong|_].
        -- destruct (IH (headlines
                           ++ [make_headline now source (Py.strip title_text)]))
             as (new & Hrun & Hlen & Hall).
           exists (make_headline now source (Py.strip title_text) :: new).
           rewrite Hrun, <- app_assoc. split; [done|]. split; [simpl; lia|].
           constructor; [by split|done].
        -- destruct (IH headlines) as (new & Hrun & Hlen & Hall).
           exists new. split; [done|]. split; [lia|done].
      * destruct (IH headlines) as (new & Hrun & Hlen & Hall).
        exists new. split; [done|]. split; [lia|done].
    + destruct (IH headlines) as (new & Hrun & Hlen & Hall).
      exists new. split; [done|]. split; [lia|done].
Qed.

Lemma html_loop_new (source : SourceEntry) (elements : list string)
  (headlines : list Headline) :
  exists new,
    html_loop now source elements headlines = headlines ++ new
    /\ (length new <= length elements)%nat
    /\ Forall (scraped_from now source) new.
Proof.
  revert headlines. induction elements as [|text rest IH]; intros headlines.
  - exists []. simpl. by rewrite app_nil_r.
  - simpl. destruct (Py.nonempty text); simpl.
    + destruct (Nat.ltb_spec 20 (Py.len text)) as [Hlong|_].
      * destruct (IH (headlines ++ [make_headline now source text]))
          as (new & Hrun & Hlen & Hall).
        exists (make_headline now source text :: new).
        rewrite Hrun, <- app_assoc. split; [done|]. split; [simpl; lia|].
        constructor; [by split|done].
      * destruct (IH headlines) as (new & Hrun & Hlen & Hall).
        exists new. split; [done|]. split; [lia|done].
    + destruct (IH headlines) as (new & Hrun & Hlen & Hall).
      exists new. split; [done|]. split; [lia|done].
Qed.

Lemma fetch_rss_headlines_bounds (source : SourceEntry) :
  (length (fst (fetch_rss_headlines fetch_feed now source)) <= 10)%nat
  /\ Forall (scraped_from now source)
       (fst (fetch_rss_headlines fetch_feed now source)).
Proof.
  unfold fetch_rss_headlines.
  destruct (entry_rss source) as [rss_url|]; [|simpl; split; [lia|done]].
  destruct (negb _); [simpl; split; [lia|done]|].
  destruct (fetch_feed rss_url) as [items|]; [|simpl; split; [lia|done]].
  destruct (rss_loop_new source (firstn 10 items) [])
    as (new & Hrun & Hlen & Hall).
  simpl. rewrite Hrun. simpl. split; [|done].
  rewrite length_take in Hlen. lia.
Qed.

Lemma fetch_html_headlines_bounds (source : SourceEntry) :
  (length (fst (fetch_html_headlines fetch_page now source)) <= 10)%nat
  /\ Forall (scraped_from now source)
       (fst (fetch_html_headlines fetch_page now source)).
Proof.
  unfold fetch_html_headlines.
  destruct (fetch_page _ _) as [elements|]; [|simpl; split; [lia|done]].
  destruct (html_loop_new source (firstn 10 elements) [])
    as (new & Hrun & Hlen & Hall).
  simpl. rewrite Hrun. simpl. split; [|done].
  rewrite length_take in Hlen. lia.
Qed.

Lemma fetch_headlines_choice (source : SourceEntry) :
  fst (fetch_headlines fetch_feed fetch_page now source)
  = match fst (fetch_rss_headlines fetch_feed now source) with
    | [] => fst (fetch_html_headlines fetch_page now source)
    | from_rss => from_rss
    end.
Proof.
  unfold fetch_headlines.
  destruct (fetch_rss_headlines fetch_feed now source) as [[|h hs] logs];
    [|done].
  by destruct (fetch_html_headlines fetch_page now source).
Qed.

Lemma fetch_headlines_bounds (source : SourceEntry) :
  (length (fst (fetch_headlines fetch_feed fetch_page now source)) <= 10)%nat
  /\ Forall (scraped_from now source)
       (fst (fetch_headlines fetch_feed fetch_page now source)).
Proof.
  rewrite fetch_headlines_choice.
  pose proof (fetch_rss_headlines_bounds source) as Hrss.
  pose proof (fetch_html_headlines_bounds source) as Hhtml.
  by destruct (fst (fetch_rss_headlines fetch_feed now source)).
Qed.

(** X17: a source yields at most ten headlines, each with a text of
    more than twenty characters and with the id, name, owner and rating
    of the source and the reading of the clock; the headlines are those
    of the feed when the feed gives any, and those of the page
    otherwise, also when the feed answers but none of its first ten
    titles is long enough. *)
Theorem fetch_headlines_limits (source : SourceEntry) :
  (length (fst (fetch_headlines fetch_feed fetch_page now source)) <= 10)%nat
  /\ Forall (scraped_from now source)
       (fst (fetch_headlines fetch_feed fetch_page now source))
  /\ fst (fetch_headlines fetch_feed fetch_page now source)
     = match fst (fetch_rss_headlines fetch_feed now source) with
       | [] => fst (fetch_html_headlines fetch_page now source)
       | from_rss => from_rss
       end.
Proof.
  destruct (fetch_headlines_bounds source) as [Hlen Hall].
  split; [done|]. split; [done|]. apply fetch_headlines_choice.
Qed.

Lemma scrape_loop_new (entries : list SourceEntry)
  (all_headlines : list Headline) (logs : list ScrapeLog) :
  exists new,
    fst (scrape_loop fetch_feed fetch_page now entries all_headlines logs)
    = all_headlines ++ new
    /\ (length new <= 10 * length entries)%nat
    /\ Forall (fun h => exists source,
                 source ∈ entries /\ scraped_from now source h) new.
Proof.
  revert all_headlines logs.
  induction entries as [|source rest IH]; intros all_headlines logs.
  - exists []. simpl. by rewrite app_nil_r.
  - simpl.
    destruct (fetch_headlines_bounds source) as [Hlen Hall].
    destruct (fetch_headlines fetch_feed fetch_page now source)
      as [headlines logs'].
    simpl in Hlen, Hall.
    destruct (IH (all_headlines ++ headlines) (logs ++ logs'))
      as (new & Hrun & Hlen' & Hall').
    exists (headlines ++ new). rewrite Hrun, <- app_assoc.
    split; [done|]. split; [rewrite length_app; lia|].
    apply Forall_app. split.
    + eapply Forall_impl; [exact Hall|]. intros h Hh.
      exists source. split; [by left|done].
    + eapply Forall_impl; [exact Hall'|]. intros h (src & Hin & Hh).
      exists src. split; [by right|done].
Qed.

Lemma scrape_all_sources_bounds (entries : list SourceEntry) :
  (length (fst (scrape_all_sources fetch_feed fetch_page now entries))
   <= 10 * length entries)%nat
  /\ Forall (fun h => exists source,
               source ∈ entries /\ scraped_from now source h)
       (fst (scrape_all_sources fetch_feed fetch_page now entries)).
Proof.
  unfold scrape_all_sources.
  destruct (scrape_loop_new entries [] []) as (new & Hrun & Hlen & Hall).
  rewrite Hrun. done.
Qed.

(** X18: a scrape yields at most ten headlines per configured source,
    and every headline carries the id of a configured source, so the
    independence test finds the source of every scraped headline in the
    registry. *)
Theorem scraped_headlines_have_known_sources (cfg : Config)
  (entries : list SourceEntry) :
  entry_source <$> entries = sources cfg ->
  (length (fst (scrape_all_sources fetch_feed fetch_page now entries))
   <= 10 * length (sources cfg))%nat
  /\ forall h,
       h ∈ fst (scrape_all_sources fetch_feed fetch_page now entries) ->
       (20 < Py.len (h_text h))%nat
       /\ h_source_id h ∈ src_id <$> sources cfg
       /\ is_Some (sources_by_id (sources cfg) !! h_source_id h).
Proof.
  intros Hcfg.
  destruct (scrape_all_sources_bounds entries) as [Hlen Hall].
  split.
  - rewrite <- Hcfg, length_fmap. done.
  - intros h Hin. rewrite Forall_forall in Hall.
    destruct (Hall h Hin) as (source & Hsrc & Hmade & Hlong).
    assert (h_source_id h ∈ src_id <$> sources cfg) as Hid.
    { rewrite Hmade. simpl. rewrite <- Hcfg, <- list_fmap_compose.
      by apply (list_elem_of_fmap_2 (src_id ∘ entry_source)). }
    split; [done|]. split; [done|].
    destruct (sources_by_id (sources cfg) !! h_source_id h) eqn:E; [eauto|].
    by apply sources_by_id_None in E.
Qed.

End ScrapingFacts.

Section ScrapeAndProcess.

Variable CONFIG : Config.
Variable FACT_EXTRACTION_PROMPT : string.
Variable messages_create : nat -> Request -> option string.
Variable json_loads : string -> option ExtractResult.
Variable text_to_speech : string -> bool.
Variable fetch_feed : string -> option (list (option string)).
Variable fetch_page : string -> string -> option (list string).
Variable now : Z.


End ScrapeAndProcess.

Lemma scraped_headlines_have_known_sources_witness :
  (length (fst (scrape_all_sources demo_feed demo_page nine_o_clock
                  demo_entries)) <= 10 * 4)%nat
  /\ forall h,
       h ∈ fst (scrape_all_sources demo_feed demo_page nine_o_clock
                  demo_entries) ->
       (20 < Py.len (h_text h))%nat
       /\ h_source_id h ∈ src_id <$> sources demo_config
       /\ is_Some (sources_by_id (sources demo_config) !! h_source_id h).
Proof.
  apply (scraped_headlines_have_known_sources demo_feed demo_page
           nine_o_clock demo_config demo_entries).
  reflexivity.
Defined.

Example scrape_of_the_four_sources :
  h_text <$> fst (scrape_all_sources demo_feed demo_page nine_o_clock
                    demo_entries)
  = [ "Council OKs huge $2M park makeover";
      "Park renovation worth $2M wins council vote" ]
  /\ snd (scrape_all_sources demo_feed demo_page nine_o_clock demo_entries)
     = [ LogFetched 1 "Acme Daily" ViaRSS;
         LogFetchFailed "The Globe" ViaRSS;
         LogFetched 1 "Civic Post" ViaHTML ].
Proof. vm_compute. split; reflexivity. Qed.


(** ** The RSS feed *)





(** ** The text log read back by the backfill script *)

Lemma count_char_append (c : ascii) (s1 s2 : string) :
  count_char c (s1 +:+ s2) = (count_char c s1 + count_char c s2)%nat.
Proof. induction s1 as [|d s1 IH]; simpl; [done|]. rewrite IH. lia. Qed.

Lemma count_char_of_list (c : ascii) (l : list ascii) :
  count_char c (string_of_list_ascii l)
  = length (List.filter (Ascii.eqb c) l).
Proof.
  induction l as [|d l IH]; simpl; [done|].
  rewrite IH. by destruct (Ascii.eqb c d).
Qed.

Lemma count_char_list (c : ascii) (s : string) :
  count_char c s = length (List.filter (Ascii.eqb c) (list_ascii_of_string s)).
Proof.
  by rewrite <- count_char_of_list, string_of_list_ascii_of_string.
Qed.

Lemma filter_rev_length {A} (f : A -> bool) (l : list A) :
  length (List.filter f (rev l)) = length (List.filter f l).
Proof.
  induction l as [|x l IH]; simpl; [done|].
  rewrite List.filter_app, length_app, IH. simpl.
  destruct (f x); simpl; lia.
Qed.

Lemma lstrip_keeps (c : ascii) (l : list ascii) :
  Py.isspace c = false ->
  length (List.filter (Ascii.eqb c) (Py.lstrip l))
  = length (List.filter (Ascii.eqb c) l).
Proof.
  intros Hc. induction l as [|d l IH]; simpl; [done|].
  destruct (Py.isspace d) eqn:Hd; [|done].
  rewrite IH. destruct (Ascii.eqb_spec c d) as [->|_]; [congruence|done].
Qed.

(** Stripping keeps every character that is no blank. *)
Lemma count_char_strip (c : ascii) (s : string) :
  Py.isspace c = false -> count_char c (Py.strip s) = count_char c s.
Proof.
  intros Hc. unfold Py.strip.
  rewrite count_char_of_list, filter_rev_length, (lstrip_keeps c _ Hc),
    filter_rev_length, (lstrip_keeps c _ Hc).
  by rewrite count_char_list.
Qed.

Lemma fields_go_length (c : ascii) (cur cs : list ascii) :
  length (Py.fields_go (Ascii.eqb c) cur cs)
  = S (length (List.filter (Ascii.eqb c) cs)).
Proof.
  revert cur. induction cs as [|d cs IH]; intros cur; simpl; [done|].
  destruct (Ascii.eqb c d); simpl; by rewrite IH.
Qed.

(** Splitting on a character gives one field more than the character
    occurs. *)
Lemma split_on_length (c : ascii) (s : string) :
  length (Py.split_on c s) = S (count_char c s).
Proof.
  unfold Py.split_on, Py.fields. by rewrite fields_go_length, count_char_list.
Qed.

Lemma fields_go_free (c : ascii) (cur cs : list ascii) :
  Forall (fun d => Ascii.eqb c d = false) cur ->
  Forall (fun field => count_char c field = 0%nat)
    (Py.fields_go (Ascii.eqb c) cur cs).
Proof.
  assert (forall l, Forall (fun d => Ascii.eqb c d = false) l ->
                    count_char c (string_of_list_ascii (rev l)) = 0%nat)
    as Hfree.
  { intros l Hl. rewrite count_char_of_list, filter_rev_length.
    induction Hl as [|d l Hd _ IH]; simpl; [done|]. by rewrite Hd. }
  revert cur. induction cs as [|d cs IH]; intros cur Hcur; simpl.
  - constructor; [by apply Hfree|constructor].
  - destruct (Ascii.eqb c d) eqn:E.
    + constructor; [by apply Hfree|]. apply IH. constructor.
    + apply IH. by constructor.
Qed.

Lemma line_facts_free (raw : string) :
  Forall (fun fact => count_char "|" fact = 0%nat) (line_facts raw).
Proof.
  unfold line_facts. destruct (_ || _); [constructor|].
  destruct (_ <=? _)%nat; [|constructor].
  destruct (Py.split_on "|" (Py.strip raw) !! 5%nat) as [part|] eqn:E;
    [|constructor].
  constructor; [|constructor].
  apply list_elem_of_lookup_2 in E.
  pose proof (fields_go_free "|" [] (list_ascii_of_string (Py.strip raw))
                (Forall_nil_2 _)) as Hall.
  rewrite Forall_forall in Hall. by apply Hall.
Qed.

(** The loop never raises: a line with six fields has a sixth one. *)
Lemma facts_loop_run (lines facts : list string) :
  facts_loop lines facts = Some (facts ++ flat_map line_facts lines).
Proof.
  revert facts. induction lines as [|raw rest IH]; intros facts.
  - simpl. by rewrite app_nil_r.
  - cbn [facts_loop flat_map]. unfold line_facts.
    destruct (negb (Py.nonempty (Py.strip raw))
              || Py.starts_with "#" (Py.strip raw)); [apply IH|].
    destruct (Nat.leb_spec 6 (length (Py.split_on "|" (Py.strip raw))))
      as [Hlen|_]; [|apply IH].
    destruct (Py.split_on "|" (Py.strip raw) !! 5%nat) as [part|] eqn:E.
    + rewrite IH. simpl. by rewrite <- app_assoc.
    + apply lookup_ge_None in E. lia.
Qed.

Lemma line_facts_few_pipes (raw : string) :
  (count_char "|" raw < 5)%nat -> line_facts raw = [].
Proof.
  intros Hfew. unfold line_facts. destruct (_ || _); [done|].
  rewrite split_on_length, count_char_strip by done.
  destruct (Nat.leb_spec 6 (S (count_char "|" raw))); [lia|done].
Qed.

(** X21: reading the facts of an archived log never fails half way:
    the result is what the lines contribute, line by line.  A line with
    fewer than five bars contributes nothing; no fact that is returned
    holds a bar, so a fact text with a bar in it comes back cut at the
    bar; and a missing or unreadable archive gives no fact. *)
Theorem get_facts_from_archive_lines (lines : list string) :
  get_facts_from_archive None = []
  /\ get_facts_from_archive (Some lines) = flat_map line_facts lines
  /\ (length (get_facts_from_archive (Some lines)) <= length lines)%nat
  /\ (forall fact,
        fact ∈ get_facts_from_archive (Some lines) ->
        count_char "|" fact = 0%nat)
  /\ (forall before raw after,
        lines = before ++ raw :: after ->
        (count_char "|" raw < 5)%nat ->
        get_facts_from_archive (Some lines)
        = get_facts_from_archive (Some (before ++ after))).
Proof.
  split; [done|].
  assert (forall l, get_facts_from_archive (Some l) = flat_map line_facts l)
    as Hrun.
  { intros l. unfold get_facts_from_archive. by rewrite facts_loop_run. }
  split; [apply Hrun|]. split; [|split].
  - rewrite Hrun. clear. induction lines as [|raw rest IH]; simpl; [done|].
    rewrite length_app.
    assert (length (line_facts raw) <= 1)%nat; [|lia].
    unfold line_facts. destruct (_ || _); [simpl; lia|].
    destruct (_ <=? _)%nat; [|simpl; lia].
    destruct (_ !! _); simpl; lia.
  - intros fact. rewrite Hrun, list_elem_of_In, in_flat_map.
    intros (raw & _ & Hin%list_elem_of_In).
    pose proof (line_facts_free raw) as Hfree.
    rewrite Forall_forall in Hfree. by apply Hfree.
  - intros before raw after -> Hfew. rewrite !Hrun, !flat_map_app. simpl.
    by rewrite (line_facts_few_pipes raw Hfew).
Qed.

(** X22: the lines that [append_daily_log] of [main.py] writes have
    four fields: when the time stamp, the names, the scores and the fact
    of a story hold no bar, the reader of the backfill script, which
    wants six fields, gets no fact from the line, nor from the header. *)
Theorem daily_log_lines_give_no_fact (today : string)
  (stories : list (string * string * string * string)) :
  Forall (fun '(timestamp, source_names, source_scores, fact) =>
            count_char "|" timestamp = 0%nat
            /\ count_char "|" source_names = 0%nat
            /\ count_char "|" source_scores = 0%nat
            /\ count_char "|" fact = 0%nat) stories ->
  count_char "|" today = 0%nat ->
  get_facts_from_archive
    (Some (daily_log_header today
           ++ ((fun '(timestamp, source_names, source_scores, fact) =>
                  daily_log_line timestamp source_names source_scores fact)
                 <$> stories)))
  = [].
Proof.
  intros Hstories Htoday. unfold get_facts_from_archive.
  rewrite facts_loop_run, flat_map_app.
  assert (forall l, Forall (fun raw => (count_char "|" raw < 5)%nat) l ->
                    flat_map line_facts l = []) as Hnone.
  { induction 1 as [|raw l Hraw _ IH]; simpl; [done|].
    by rewrite (line_facts_few_pipes raw Hraw), IH. }
  rewrite (Hnone (daily_log_header today)), Hnone; [done| |].
  - apply Forall_fmap. eapply Forall_impl; [exact Hstories|].
    intros [[[timestamp source_names] source_scores] fact] (H1 & H2 & H3 & H4).
    simpl. unfold daily_log_line.
    rewrite !count_char_append, H1, H2, H3, H4. simpl. lia.
  - unfold daily_log_header.
    repeat apply Forall_cons_2; try apply Forall_nil_2;
      rewrite ?count_char_append, ?Htoday; simpl; lia.
Qed.

Lemma daily_log_lines_give_no_fact_witness :
  get_facts_from_archive
    (Some (daily_log_header "2026-01-05"
           ++ [daily_log_line "2026-01-05T11:00:00.000000+00:00"
                 "Civic Post,Acme Daily" "9,9" park_fact_wire]))
  = [].
Proof.
  apply (daily_log_lines_give_no_fact "2026-01-05" [park_log_fields]).
  - repeat constructor.
  - reflexivity.
Defined.

Example six_fields_are_read :
  get_facts_from_archive
    (Some [ "# JTF News Daily Log"; EmptyString;
            "t|Civic Post|9|https://civic|audio_0.mp3|Council approves park";
            "t|Globe|8|https://globe|audio_1.mp3|Index falls 3% | markets";
            "t|Civic Post,Acme Daily|9,9|Council approves park" ])
  = [ "Council approves park"; "Index falls 3% " ].
Proof. vm_compute. reflexivity. Qed.

(** ** What is published and what is queued *)

Section Provenance.

Variable CONFIG : Config.
Variable FACT_EXTRACTION_PROMPT : string.
Variable messages_create : nat -> Request -> option string.
Variable json_loads : string -> option ExtractResult.
Variable text_to_speech : string -> bool.

(** X23: a publication adds to the stories of the day one entry with
    the text of the new fact, not that of the queued item, with the
    source of the new headline before the source of the queued item,
    and with the audio file numbered by the count of stories before it,
    or the file of the current audio when the speech synthesis failed;
    the same fact and sources are written as the current story. *)
Theorem publish_verified_story (headline : Headline) (fact : string)
  (matched : QueueItem) (st : Locals) (w : World) :
  exists st' w',
    publish_verified text_to_speech headline fact matched st w = (Ok st', w')
    /\ stories_json w'
       = stories_json w
         ++ [ {| s_fact := fact;
                 s_source := source_refs headline matched;
                 s_audio :=
                   if text_to_speech fact
                   then "../audio/audio_"
                        +:+ Py.str_of_nat (length (stories_json w)) +:+ ".mp3"
                   else "../audio/current.mp3" |} ]
    /\ current_txt w' = Some (fact, source_refs headline matched)
    /\ source_refs headline matched
       = [ {| ref_name := h_source_name headline;
              ref_rating := h_source_rating headline |};
           {| ref_name := q_source_name matched;
              ref_rating := q_source_rating matched |} ]
    /\ queue_json w' = queue_json w
    /\ requests w' = requests w.
Proof.
  unfold publish_verified, get_next_audio_index, generate_tts,
    write_current_story, append_daily_log, add_shown_hash.
  destruct (text_to_speech fact); run;
    (eexists _, _; split; [reflexivity|]; by repeat split).
Qed.






End Provenance.

